(** * Rackspace / OpenStack compute driver: marshalling and state normalisation

    A shallow embedding of [libcloud/compute/drivers/rackspace.py].  Python
    dictionaries are finite maps, ElementTree elements are finite trees, the
    transport is a function from requests to raw responses, and exceptions
    are values of an error type. *)

From Stdlib Require Import ZArith Ascii String.
From stdpp Require Import base option list strings gmap fin_maps pretty.

Local Open Scope string_scope.
Local Open Scope list_scope.
Local Open Scope Z_scope.

(** ** Python strings *)

Module Py.

(** [str.lower()] on the ASCII letters. *)
Definition lower_ascii (c : ascii) : ascii :=
  let n := nat_of_ascii c in
  if (Nat.leb 65 n && Nat.leb n 90)%bool then ascii_of_nat (n + 32) else c.

Fixpoint lower (s : string) : string :=
  match s with
  | EmptyString => EmptyString
  | String c s' => String (lower_ascii c) (lower s')
  end.

(** [s.find(sub)]: the lowest index where [sub] occurs in [s], or [-1]. *)
Fixpoint find_from (i : Z) (s sub : string) : Z :=
  if String.prefix sub s then i
  else match s with
       | EmptyString => -1
       | String _ s' => find_from (i + 1) s' sub
       end.

Definition find (s sub : string) : Z := find_from 0 s sub.

(** [s.split(sep)] for a one-character separator. *)
Fixpoint split (sep : ascii) (s : string) : list string :=
  match s with
  | EmptyString => [EmptyString]
  | String c s' =>
      if Ascii.eqb c sep then EmptyString :: split sep s'
      else match split sep s' with
           | [] => [String c EmptyString]
           | t :: ts => String c t :: ts
           end
  end.

(** [sep.join(parts)]. *)
Definition join (sep : string) (parts : list string) : string :=
  String.concat sep parts.

(** Truth value of a string-or-None: [None] and [''] are falsy. *)
Definition truthy (o : option string) : bool :=
  match o with
  | Some EmptyString | None => false
  | Some _ => true
  end.

(** ['%s' % x] for a string-or-None. *)
Definition str (o : option string) : string :=
  match o with
  | Some s => s
  | None => "None"
  end.

(** A dictionary display [{k1: v1, k2: v2, ...}]: the pairs are stored from
    left to right, so a repeated key keeps its last value. *)
Definition dict `{Countable K} {V} (items : list (K * V)) : gmap K V :=
  foldl (λ d kv, <[kv.1 := kv.2]> d) ∅ items.

End Py.

(** ** Element trees *)

(** An [xml.etree.ElementTree.Element]: tag, attribute dictionary, text and
    children in document order. *)
#[local] Set Warnings "-register-all".
Inductive Element : Type :=
  mkElement (tag : string) (attrib : gmap string string)
            (text : option string) (children : list Element).

Definition tag (e : Element) : string :=
  match e with mkElement t _ _ _ => t end.
Definition attrib (e : Element) : gmap string string :=
  match e with mkElement _ a _ _ => a end.
Definition text (e : Element) : option string :=
  match e with mkElement _ _ x _ => x end.
Definition children (e : Element) : list Element :=
  match e with mkElement _ _ _ cs => cs end.

Module ET.

(** [el.get(key)]. *)
Definition get (e : Element) (key : string) : option string := attrib e !! key.

(** [el.items()] as the attribute dictionary it enumerates. *)
Definition items (e : Element) : gmap string string := attrib e.

(** [el.getiterator()]: the element and all its descendants, in document
    order. *)
Fixpoint getiterator (e : Element) : list Element :=
  match e with
  | mkElement _ _ _ cs =>
      e :: (fix go (l : list Element) : list Element :=
              match l with
              | [] => []
              | c :: l' => getiterator c ++ go l'
              end) cs
  end.

(** Steps of a path: the path is cut at every ["/"] that is not inside a
    [{namespace}] prefix. *)
Fixpoint steps (inside : bool) (path : string) : list string :=
  match path with
  | EmptyString => [EmptyString]
  | String c p' =>
      if (Ascii.eqb c "/" && negb inside)%bool then EmptyString :: steps false p'
      else
        let inside' :=
          if Ascii.eqb c "{" then true
          else if Ascii.eqb c "}" then false else inside in
        match steps inside' p' with
        | [] => [String c EmptyString]
        | t :: ts => String c t :: ts
        end
  end.

(** One child step: the children carrying the given tag, parent by parent. *)
Definition select_child (tg : string) (els : list Element) : list Element :=
  e ← els; filter (λ c, tag c = tg) (children e).

(** [el.findall(path)] for a path of tag steps ([tag/tag/...]); the paths
    built by [_fixxpath] below have no other kind of step. *)
Definition findall (el : Element) (path : string) : list Element :=
  foldl (λ acc step, select_child step acc) [el] (steps false path).

End ET.

(** ** Lifecycle states *)

(** Modelled from the spec: the lifecycle enumeration
    [libcloud.compute.types.NodeState], which the driver imports. *)
Inductive NodeState : Type :=
  | RUNNING | REBOOTING | TERMINATED | PENDING | UNKNOWN.

#[global] Instance NodeState_eq_dec : EqDecision NodeState.
Proof. solve_decision. Defined.

Definition NAMESPACE : string :=
  "http://docs.rackspacecloud.com/servers/api/v1.0".

(** [RackspaceNodeDriver.NODE_STATE_MAP], entry by entry as the source
    lists them (['REBUILD'] occurs twice). *)
Definition NODE_STATE_MAP : gmap string NodeState :=
  Py.dict [ ("BUILD", PENDING);
            ("REBUILD", PENDING);
            ("ACTIVE", RUNNING);
            ("SUSPENDED", TERMINATED);
            ("QUEUE_RESIZE", PENDING);
            ("PREP_RESIZE", PENDING);
            ("VERIFY_RESIZE", RUNNING);
            ("PASSWORD", PENDING);
            ("RESCUE", PENDING);
            ("REBUILD", PENDING);
            ("REBOOT", REBOOTING);
            ("HARD_REBOOT", REBOOTING);
            ("SHARE_IP", PENDING);
            ("SHARE_IP_NO_CONFIG", PENDING);
            ("DELETE_IP", PENDING);
            ("UNKNOWN", UNKNOWN) ].

(** [self.NODE_STATE_MAP.get(status, NodeState.UNKNOWN)], where [status] is
    the result of [el.get('status')]: a string, or [None] when the attribute
    is missing.  [None] is not a key of the table. *)
Definition NODE_STATE_MAP_get (status : option string) : NodeState :=
  match status with
  | Some s => default UNKNOWN (NODE_STATE_MAP !! s)
  | None => UNKNOWN
  end.

(** The table of the specification (section 4.3), in its order. *)
Definition spec_state_table : list (string * NodeState) :=
  [ ("BUILD", PENDING); ("REBUILD", PENDING); ("ACTIVE", RUNNING);
    ("SUSPENDED", TERMINATED); ("QUEUE_RESIZE", PENDING);
    ("PREP_RESIZE", PENDING); ("VERIFY_RESIZE", RUNNING);
    ("PASSWORD", PENDING); ("RESCUE", PENDING); ("REBOOT", REBOOTING);
    ("HARD_REBOOT", REBOOTING); ("SHARE_IP", PENDING);
    ("SHARE_IP_NO_CONFIG", PENDING); ("DELETE_IP", PENDING);
    ("UNKNOWN", UNKNOWN) ].

(** Association-list lookup, first match. *)
Fixpoint assoc {V} (k : string) (l : list (string * V)) : option V :=
  match l with
  | [] => None
  | (k', v) :: l' => if decide (k' = k) then Some v else assoc k l'
  end.

(** ** Exceptions *)

(** The exceptions the modelled code can raise.  [MalformedResponseError]
    carries its message and the offending body (its [driver] argument is
    always [RackspaceNodeDriver]). *)
Inductive exn : Type :=
  | MalformedResponseError (value body : string)
  | AttributeError
  | TypeError
  | KeyError (key : string).

Inductive result (A : Type) : Type :=
  | Ok (a : A)
  | Raise (e : exn).
Arguments Ok {A} a.
Arguments Raise {A} e.

#[global] Instance result_ret : MRet result := λ A a, Ok a.
#[global] Instance result_bind : MBind result :=
  λ A B k m, match m with Ok a => k a | Raise e => Raise e end.

(** [ET.XML], the XML parser of the standard library: [None] stands for a
    parse failure (an exception of the parser). *)
Class XMLParser := XML : string → option Element.

(** [ET.tostring(ET.Element(tag, attrib))].  The driver hands over attribute
    dictionaries whose values may be [None]; serialising such a value raises
    [TypeError] ("cannot serialize None").  Otherwise the payload is
    identified with the element it serialises. *)
Definition tostring_Element (tg : string) (attrs : gmap string (option string))
  : result Element :=
  if decide (map_Forall (λ _ v, is_Some v) attrs)
  then Ok (mkElement tg (omap id attrs) None [])
  else Raise TypeError.

(** ** Responses *)

(** Modelled from the spec: the transport collaborator returns, for each
    request, a status, headers and a raw body (section 6), together with the
    reason phrase; [libcloud.common.base.Response] is imported, not defined
    here. *)
Record Response : Type := mkResponse {
  status : Z;
  headers : gmap string string;
  body : string;
  error : string
}.

(** What [resp.object] can hold: [None], the raw body, or a parsed tree. *)
Inductive Object : Type :=
  | ONone
  | ORaw (s : string)
  | OTree (e : Element).

Definition body_is_empty (r : Response) : bool :=
  match body r with EmptyString => true | _ => false end.

Module RackspaceResponse.

Definition success (r : Response) : bool :=
  let i := status r in
  (200 <=? i) && (i <=? 299).

Definition parse_body `{!XMLParser} (r : Response) : result Object :=
  if body_is_empty r then Ok ONone
  else match XML (body r) with
       | Some b => Ok (OTree b)
       | None => Raise (MalformedResponseError "Failed to parse XML" (body r))
       end.

(** The texts collected by the comprehension
    [[err.text or '' for err in body.getiterator() if err.text]]. *)
Definition error_texts (b : Element) : list string :=
  (λ err, if Py.truthy (text err) then default "" (text err) else "")
    <$> filter (λ err, Py.truthy (text err)) (ET.getiterator b).

(** The second [try] of the source only joins strings of the tree already
    parsed; its [except ExpatError] handler is never entered. *)
Definition parse_error `{!XMLParser} (r : Response) : result string :=
  match XML (body r) with
  | None => Raise (MalformedResponseError "Failed to parse XML" (body r))
  | Some b =>
      let text := Py.join "; " (error_texts b) in
      Ok (pretty (status r) +:+ " " +:+ error r +:+ " " +:+ text)
  end.

End RackspaceResponse.

Module OpenStackResponse.

Definition has_content_type (r : Response) (content_type : string)
  : result bool :=
  let content_type_header : gmap string string :=
    filter (λ kv, Py.lower kv.1 = "content-type") (headers r) in
  if decide (content_type_header = ∅) then Ok false
  else
    match content_type_header !! "content-type" with
    | None => Raise (KeyError "content-type")
    | Some v =>
        let content_type_value := Py.lower v in
        Ok (bool_decide
              (Py.find content_type_value (Py.lower content_type) > -1))
    end.

Definition parse_body `{!XMLParser} (r : Response) : result Object :=
  h ← has_content_type r "application/xml";
  if negb h || body_is_empty r then Ok (ORaw (body r))
  else match XML (body r) with
       | Some b => Ok (OTree b)
       | None => Raise (MalformedResponseError "Failed to parse XML" (body r))
       end.

End OpenStackResponse.

(** ** Connections and operations *)

Inductive Driver : Type :=
  | RackspaceNodeDriver
  | RackspaceUKNodeDriver
  | OpenStackNodeDriver.

(** What the driver hands to [self.connection.request]: the action, the
    method and the payload ([None] for the default [data='']). *)
Record Request : Type := mkRequest {
  action : string;
  method : string;
  data : option Element
}.

(** Modelled from the spec: the connection as the driver uses it, that is
    the attributes read from it and the transport collaborator it wraps
    (section 6); [RackspaceBaseConnection] is imported, not defined here. *)
Record Connection : Type := mkConnection {
  host : string;
  request_path : string;
  driver : Driver;
  transport : Request → Response
}.

(** [responseCls] of the connection class of each driver. *)
Definition parse_body `{!XMLParser} (d : Driver) (r : Response) : result Object :=
  match d with
  | RackspaceNodeDriver | RackspaceUKNodeDriver => RackspaceResponse.parse_body r
  | OpenStackNodeDriver => OpenStackResponse.parse_body r
  end.

(** An operation of the driver reads its connection, sends requests and
    returns a value or raises: a run yields the requests sent, in order, and
    the outcome. *)
Definition Op (A : Type) : Type := Connection → list Request * result A.

#[global] Instance Op_ret : MRet Op := λ A a _, ([], Ok a).
#[global] Instance Op_bind : MBind Op :=
  λ A B k m c,
    match m c with
    | (l1, Ok a) => let '(l2, r) := k a c in (l1 ++ l2, r)
    | (l1, Raise e) => (l1, Raise e)
    end.

Definition sent {A} (m : Op A) (c : Connection) : list Request := (m c).1.
Definition outcome {A} (m : Op A) (c : Connection) : result A := (m c).2.

Definition connection : Op Connection := λ c, ([], Ok c).
Definition lift {A} (r : result A) : Op A := λ _, ([], r).
Definition request (rq : Request) : Op Response :=
  λ c, ([rq], Ok (transport c rq)).

(** Modelled from the spec: [resp.object] is the raw body decoded by the
    response class of the connection (section 2, control flow); the base
    class that fills this attribute is imported, not defined here. *)
Definition object `{!XMLParser} (resp : Response) : Op Object :=
  λ c, ([], parse_body (driver c) resp).

(** The mappers start by reading an attribute of their argument
    ([el.findall], [el.get]): on [None] or on a raw string this raises
    [AttributeError]. *)
Definition element (o : Object) : result Element :=
  match o with
  | OTree e => Ok e
  | ONone | ORaw _ => Raise AttributeError
  end.

(** ** Entities *)

(** Values stored in a node's [extra] dictionary. *)
Inductive Value : Type :=
  | VNone
  | VStr (s : string)
  | VDict (d : gmap (option string) (option string)).

Definition value (o : option string) : Value :=
  match o with Some s => VStr s | None => VNone end.

(** Modelled from the spec: the entities of section 3, with the fields the
    driver fills; [Node] and [NodeImage] are imported from
    [libcloud.compute.base]. *)
Record Node : Type := mkNode {
  node_id : option string;
  node_name : option string;
  node_state : NodeState;
  node_public_ip : list (option string);
  node_private_ip : list (option string);
  node_driver : Driver;
  node_extra : gmap string Value
}.

Record NodeImage : Type := mkNodeImage {
  image_id : option string;
  image_name : option string;
  image_driver : Driver;
  image_extra : gmap string (option string)
}.

Record Limits : Type := mkLimits {
  rate : list (gmap string string);
  absolute : gmap (option string) (option string)
}.

(** The argument of [ex_get_node_details]: a node or a node id. *)
Inductive NodeOrId : Type :=
  | IsNode (n : Node)
  | IsId (i : string).

(** [node.extra['password'] = password], the one in-place update of a node. *)
Definition set_extra (k : string) (v : Value) (n : Node) : Node :=
  mkNode (node_id n) (node_name n) (node_state n) (node_public_ip n)
         (node_private_ip n) (node_driver n) (<[k := v]> (node_extra n)).

(** ** The driver *)

Definition _fixxpath (xpath : string) : string :=
  Py.join "/" ((λ e, "{" +:+ NAMESPACE +:+ "}" +:+ e) <$> Py.split "/" xpath).

Definition _findall (el : Element) (xpath : string) : list Element :=
  ET.findall el (_fixxpath xpath).

Definition get_ips (el : list Element) : list (option string) :=
  (λ ip, ET.get ip "addr") <$> el.

Definition get_meta_dict (el : list Element)
  : gmap (option string) (option string) :=
  foldl (λ d meta, <[ET.get meta "key" := text meta]> d) ∅ el.

Definition _to_node (c : Connection) (el : Element) : Node :=
  let public_ip := get_ips (_findall el "addresses/public/ip") in
  let private_ip := get_ips (_findall el "addresses/private/ip") in
  let metadata := get_meta_dict (_findall el "metadata/meta") in
  mkNode (ET.get el "id") (ET.get el "name")
         (NODE_STATE_MAP_get (ET.get el "status"))
         public_ip private_ip (driver c)
         (Py.dict
            [ ("password", value (ET.get el "adminPass"));
              ("hostId", value (ET.get el "hostId"));
              ("imageId", value (ET.get el "imageId"));
              ("flavorId", value (ET.get el "flavorId"));
              ("uri", VStr ("https://" +:+ host c +:+ request_path c
                            +:+ "/servers/" +:+ Py.str (ET.get el "id")));
              ("metadata", VDict metadata) ]).

Definition _to_image (c : Connection) (el : Element) : NodeImage :=
  mkNodeImage (ET.get el "id") (ET.get el "name") (driver c)
    (Py.dict
       [ ("updated", ET.get el "updated");
         ("created", ET.get el "created");
         ("status", ET.get el "status");
         ("serverId", ET.get el "serverId");
         ("progress", ET.get el "progress") ]).

(** The comprehension of [_to_images], element by element. *)
Fixpoint _to_images_of (c : Connection) (elements : list Element)
  : list NodeImage :=
  match elements with
  | [] => []
  | el :: elements' =>
      if decide (ET.get el "status" = Some "ACTIVE")
      then _to_image c el :: _to_images_of c elements'
      else _to_images_of c elements'
  end.

Definition _to_images (c : Connection) (object : Element) : list NodeImage :=
  let elements := _findall object "image" in
  _to_images_of c elements.

Definition list_images `{!XMLParser} : Op (list NodeImage) :=
  resp ← request (mkRequest "/images/detail" "GET" None);
  o ← object resp;
  el ← lift (element o);
  c ← connection;
  mret (_to_images c el).

Definition _change_password_or_name (node : Node) (name password : option string)
  : Op (bool * Node) :=
  let uri := "/servers/" +:+ Py.str (node_id node) in
  let name := if Py.truthy name then name else node_name node in
  let body : gmap string (option string) :=
    Py.dict [ ("xmlns", Some NAMESPACE); ("name", name) ] in
  let body :=
    match password with
    | Some p => <["adminPass" := Some p]> body
    | None => body
    end in
  server_elm ← lift (tostring_Element "server" body);
  resp ← request (mkRequest uri "PUT" (Some server_elm));
  let node' :=
    match password with
    | Some p =>
        if status resp =? 204 then set_extra "password" (VStr p) node else node
    | None => node
    end in
  mret (status resp =? 204, node').

(** The password handed to [ex_set_password] is a string. *)
Definition ex_set_password (node : Node) (password : string) : Op (bool * Node) :=
  _change_password_or_name node None (Some password).

Definition ex_set_server_name (node : Node) (name : option string)
  : Op (bool * Node) :=
  _change_password_or_name node name None.

Definition _metadata_to_xml (metadata : gmap string string) : option Element :=
  if decide (size metadata = 0%nat) then None
  else
    Some (mkElement "metadata" ∅ None
            ((λ kv, mkElement "meta" {["key" := kv.1]} (Some kv.2) [])
               <$> map_to_list metadata)).

(** The result is [None] for the not-found sentinel. *)
Definition ex_get_node_details `{!XMLParser} (node_or_id : NodeOrId)
  : Op (option Node) :=
  let node_id :=
    match node_or_id with
    | IsNode n => Py.str (node_id n)
    | IsId i => i
    end in
  let uri := "/servers/" +:+ node_id in
  resp ← request (mkRequest uri "GET" None);
  if status resp =? 404 then mret None
  else
    o ← object resp;
    el ← lift (element o);
    c ← connection;
    mret (Some (_to_node c el)).

Definition _to_rate (el : Element) : gmap string string :=
  Py.dict (map_to_list (ET.items el)).

Definition _to_absolute (el : Element) : gmap (option string) (option string) :=
  {[ ET.get el "name" := ET.get el "value" ]}.

(** [d.update(other)]: the entries of [other] overwrite those of [d]. *)
Definition update `{Countable K} {V} (d other : gmap K V) : gmap K V :=
  other ∪ d.

Definition ex_limits `{!XMLParser} : Op Limits :=
  resp ← request (mkRequest "/limits" "GET" None);
  o ← object resp;
  limits ← lift (element o);
  let rate := _to_rate <$> _findall limits "rate/limit" in
  let absolute :=
    foldl (λ absolute item, update absolute (_to_absolute item)) ∅
          (_findall limits "absolute/limit") in
  mret (mkLimits rate absolute).

Definition ex_save_image `{!XMLParser} (node : Node) (name : string)
  : Op NodeImage :=
  image_elm ← lift (tostring_Element "image"
                      (Py.dict [ ("xmlns", Some NAMESPACE);
                                 ("name", Some name);
                                 ("serverId", node_id node) ]));
  resp ← request (mkRequest "/images" "POST" (Some image_elm));
  o ← object resp;
  el ← lift (element o);
  c ← connection;
  mret (_to_image c el).

(** ** Notions used in the statements *)

(** A dictionary filled in a loop: [for x in l: d[key(x)] = val(x)]. *)
Definition fill {A} `{Countable K} {V} (key : A → K) (val : A → V)
    (d : gmap K V) (l : list A) : gmap K V :=
  foldl (λ d x, <[key x := val x]> d) d l.

Definition qname (e : string) : string := "{" +:+ NAMESPACE +:+ "}" +:+ e.

Definition is_active (el : Element) : Prop := ET.get el "status" = Some "ACTIVE".

#[global] Instance is_active_dec el : Decision (is_active el).
Proof. unfold is_active. apply _. Defined.

(** The attribute dictionary of the [server] element of a modify request. *)
Definition modify_body (name password : option string)
  : gmap string (option string) :=
  let body := Py.dict [ ("xmlns", Some NAMESPACE); ("name", name) ] in
  match password with
  | Some p => <["adminPass" := Some p]> body
  | None => body
  end.

(** The effective name of a modify request: the caller's, or the node's
    when the caller's is missing or empty. *)
Definition modify_name (node : Node) (name : option string) : option string :=
  if Py.truthy name then name else node_name node.

Definition modify_request (node : Node) (nm : string) (password : option string)
  : Request :=
  mkRequest ("/servers/" +:+ Py.str (node_id node)) "PUT"
            (Some (mkElement "server"
                     (omap id (modify_body (Some nm) password)) None [])).

Definition details_request (x : NodeOrId) : Request :=
  mkRequest ("/servers/" +:+ match x with
                             | IsNode n => Py.str (node_id n)
                             | IsId i => i
                             end) "GET" None.

Definition limits_request : Request := mkRequest "/limits" "GET" None.

(** The [limit] children of the [absolute] children of the decoded tree. *)
Definition absolute_elements (limits : Element) : list Element :=
  ET.select_child (qname "limit")
    (filter (λ c, tag c = qname "absolute") (children limits)).


Definition meta_elm (kv : string * string) : Element :=
  mkElement "meta" {["key" := kv.1]} (Some kv.2) [].


(** ** Sample data for the examples *)

Definition sample_image (id status : string) : Element :=
  mkElement (qname "image")
            (Py.dict [ ("id", id); ("name", "img-" +:+ id); ("status", status) ])
            None [].

Definition sample_images : Element :=
  mkElement (qname "images") ∅ None
            [ sample_image "1" "ACTIVE"; sample_image "2" "SAVING";
              sample_image "3" "ACTIVE" ].

Definition sample_server : Element :=
  mkElement (qname "server")
            (Py.dict [ ("id", "12345"); ("name", "web1"); ("status", "ACTIVE") ])
            None [].

Definition sample_limit (name value : string) : Element :=
  mkElement (qname "limit") (Py.dict [ ("name", name); ("value", value) ])
            None [].

Definition sample_limits : Element :=
  mkElement (qname "limits") ∅ None
    [ mkElement (qname "rate") ∅ None [];
      mkElement (qname "absolute") ∅ None
        [ sample_limit "RAM" "10"; sample_limit "RAM" "20" ] ].

Definition sample_fault : Element :=
  mkElement (qname "cloudServersFault") {["code" := "500"]} None
    [ mkElement (qname "message") ∅ (Some "Internal error") [];
      mkElement (qname "details") ∅ (Some "Try again later") [] ].

Definition xmlns : string := " xmlns='" +:+ NAMESPACE +:+ "'".

Definition server_body : string :=
  "<server" +:+ xmlns +:+ " id='12345' name='web1' status='ACTIVE'/>".

Definition image_body : string :=
  "<image" +:+ xmlns +:+ " id='7' name='img-7' status='SAVING'/>".

Definition images_body : string :=
  "<images" +:+ xmlns +:+ ">"
  +:+ "<image id='1' name='img-1' status='ACTIVE'/>"
  +:+ "<image id='2' name='img-2' status='SAVING'/>"
  +:+ "<image id='3' name='img-3' status='ACTIVE'/></images>".

Definition limits_body : string :=
  "<limits" +:+ xmlns +:+ "><rate/><absolute>"
  +:+ "<limit name='RAM' value='10'/><limit name='RAM' value='20'/>"
  +:+ "</absolute></limits>".

Definition fault_body : string :=
  "<cloudServersFault" +:+ xmlns +:+ " code='500'>"
  +:+ "<message>Internal error</message>"
  +:+ "<details>Try again later</details></cloudServersFault>".

(** A parser given by a table: on each body listed it returns the tree
    [ET.XML] builds for it, and it rejects every other body, among them the
    plain text used in the examples. *)
Definition sample_XML : XMLParser := λ s,
  if decide (s = server_body) then Some sample_server
  else if decide (s = images_body) then Some sample_images
  else if decide (s = image_body) then Some (sample_image "7" "SAVING")
  else if decide (s = limits_body) then Some sample_limits
  else if decide (s = fault_body) then Some sample_fault
  else None.

Definition sample_connection (t : Request → Response) : Connection :=
  mkConnection "servers.api.rackspacecloud.com" "/v1.0/1234"
               RackspaceNodeDriver t.


(** A transport that answers every request with the same response. *)
Definition answering (status : Z) (body reason : string) : Request → Response :=
  λ _, mkResponse status {["content-type" := "application/xml"]} body reason.

Definition sample_node : Node :=
  mkNode (Some "12345") (Some "web1") RUNNING [Some "67.23.10.132"] [Some "10.176.42.16"]
         RackspaceNodeDriver
         (Py.dict [ ("password", VNone); ("hostId", VStr "e4d909c290d0fb1ca");
                    ("imageId", VStr "11"); ("flavorId", VStr "1") ]).

Definition unparsable_response : Response :=
  mkResponse 503 ∅ "Service Unavailable" "Service Unavailable".


(** ** The connection class *)

(** What [RackspaceConnection.request] hands to the request method of its
    base class. *)
Record BaseRequest : Type := mkBaseRequest {
  base_action : string;
  base_params : gmap string string;
  base_data : option Element;
  base_method : string;
  base_headers : gmap string string
}.

Module RackspaceConnection.

(** [request(action, params, data, headers, method)].  A missing ([None])
    dictionary and an empty one are both replaced by a fresh empty
    dictionary, so both are the empty map here; [server_url] is the URL
    obtained at authentication, empty before it; [nonce] stands for the
    sixteen hexadecimal digits of [os.urandom(8).encode('hex')]. *)
Definition request (server_url nonce : string) (action : string)
    (params : gmap string string) (data : option Element)
    (headers : gmap string string) (method : string) : BaseRequest :=
  let action :=
    if Py.truthy (Some server_url) then server_url +:+ action else action in
  let headers :=
    if bool_decide (method = "POST" ∨ method = "PUT")
    then {[ "Content-Type" := "application/xml; charset=UTF-8" ]}
    else headers in
  let params :=
    if bool_decide (method = "GET") then <["cache-busting" := nonce]> params
    else params in
  mkBaseRequest action params data method headers.

End RackspaceConnection.

(** ** Further entities *)

Record RackspaceSharedIpGroup : Type := mkRackspaceSharedIpGroup {
  group_id : string;
  group_name : option string;
  group_servers : option (list (option string))
}.

Record RackspaceNodeIpAddresses : Type := mkRackspaceNodeIpAddresses {
  public_addresses : list (option string);
  private_addresses : list (option string)
}.

(** Modelled from the spec: the catalogue entry of section 3, imported from
    [libcloud.compute.base], without its bandwidth (always absent) and its
    price (a decimal resolved by the pricing collaborator). *)
Record NodeSize : Type := mkNodeSize {
  size_id : option string;
  size_name : option string;
  size_ram : Z;
  size_disk : Z
}.

(** The image argument of [ex_rebuild]: an image or an image id. *)
Inductive ImageOrId : Type :=
  | IsImage (i : NodeImage)
  | IsImageId (i : string).

(** [base64.b64encode], the encoder of the standard library. *)
Class Base64 := b64encode : string → string.

(** The keyword arguments of [create_node].  [ex_shared_ip_group] is the
    deprecated spelling: its presence only triggers a warning.  A missing
    [ex_metadata] or [ex_files] is the empty dictionary. *)
Record CreateArgs : Type := mkCreateArgs {
  kw_name : string;
  kw_image : NodeImage;
  kw_size : NodeSize;
  kw_ex_shared_ip_group : option string;
  kw_ex_shared_ip_group_id : option string;
  kw_ex_metadata : gmap string string;
  kw_ex_files : gmap string string
}.

(** ** Further operations of the driver *)

(** [ET.tostring] of an element built with [ET.Element(tag, attrib)] and
    given children afterwards; as for [tostring_Element], a [None] attribute
    value of the root raises [TypeError]. *)
Definition tostring_tree (tg : string) (attrs : gmap string (option string))
    (subelements : list Element) : result Element :=
  if decide (map_Forall (λ _ v, is_Some v) attrs)
  then Ok (mkElement tg (omap id attrs) None subelements)
  else Raise TypeError.

(** Truth value of an element-or-None: [None] is false, and so is an
    element without children. *)
Definition element_truthy (o : option Element) : bool :=
  match o with
  | Some (mkElement _ _ _ (_ :: _)) => true
  | _ => false
  end.

Definition _to_nodes (c : Connection) (object : Element) : list Node :=
  let node_elements := _findall object "server" in
  _to_node c <$> node_elements.

Definition list_nodes `{!XMLParser} : Op (list Node) :=
  resp ← request (mkRequest "/servers/detail" "GET" None);
  o ← object resp;
  el ← lift (element o);
  c ← connection;
  mret (_to_nodes c el).

Definition _files_to_xml `{!Base64} (files : gmap string string)
  : option Element :=
  if decide (size files = 0%nat) then None
  else
    Some (mkElement "personality" ∅ None
            ((λ kv, mkElement "file" {["path" := kv.1]}
                              (Some (b64encode kv.2)) [])
               <$> map_to_list files)).

Definition create_node `{!XMLParser} `{!Base64} (kwargs : CreateArgs) : Op Node :=
  let name := kw_name kwargs in
  let image := kw_image kwargs in
  let size := kw_size kwargs in
  let attributes : gmap string (option string) :=
    Py.dict [ ("xmlns", Some NAMESPACE);
              ("name", Some name);
              ("imageId", Some (Py.str (image_id image)));
              ("flavorId", Some (Py.str (size_id size))) ] in
  let attributes :=
    match kw_ex_shared_ip_group_id kwargs with
    | Some shared_ip_group_id =>
        <["sharedIpGroupId" := Some shared_ip_group_id]> attributes
    | None => attributes
    end in
  let metadata_elm := _metadata_to_xml (kw_ex_metadata kwargs) in
  let files_elm := _files_to_xml (kw_ex_files kwargs) in
  let subelements :=
    (if element_truthy metadata_elm then option_list metadata_elm else [])
    ++ (if element_truthy files_elm then option_list files_elm else []) in
  server_elm ← lift (tostring_tree "server" attributes subelements);
  resp ← request (mkRequest "/servers" "POST" (Some server_elm));
  o ← object resp;
  el ← lift (element o);
  c ← connection;
  mret (_to_node c el).

Definition ex_resize (node : Node) (size : NodeSize) : Op bool :=
  elm ← lift (tostring_Element "resize"
                (Py.dict [ ("xmlns", Some NAMESPACE);
                           ("flavorId", Some (Py.str (size_id size))) ]));
  resp ← request (mkRequest ("/servers/" +:+ Py.str (node_id node) +:+ "/action")
                            "POST" (Some elm));
  mret (status resp =? 202).

Definition ex_confirm_resize (node : Node) : Op bool :=
  elm ← lift (tostring_Element "confirmResize"
                (Py.dict [ ("xmlns", Some NAMESPACE) ]));
  resp ← request (mkRequest ("/servers/" +:+ Py.str (node_id node) +:+ "/action")
                            "POST" (Some elm));
  mret (status resp =? 204).

Definition ex_revert_resize (node : Node) : Op bool :=
  elm ← lift (tostring_Element "revertResize"
                (Py.dict [ ("xmlns", Some NAMESPACE) ]));
  resp ← request (mkRequest ("/servers/" +:+ Py.str (node_id node) +:+ "/action")
                            "POST" (Some elm));
  mret (status resp =? 204).

Definition ex_rebuild (node_or_id : NodeOrId) (image_or_id : ImageOrId)
  : Op bool :=
  let node_id :=
    match node_or_id with
    | IsNode n => node_id n
    | IsId i => Some i
    end in
  let image_id :=
    match image_or_id with
    | IsImage i => image_id i
    | IsImageId i => Some i
    end in
  elm ← lift (tostring_Element "rebuild"
                (Py.dict [ ("xmlns", Some NAMESPACE); ("imageId", image_id) ]));
  resp ← request (mkRequest ("/servers/" +:+ Py.str node_id +:+ "/action")
                            "POST" (Some elm));
  mret (status resp =? 202).

Definition _to_shared_ip_group (el : Element) : RackspaceSharedIpGroup :=
  let servers_el := _findall el "servers" in
  let servers :=
    match servers_el with
    | servers_el_0 :: _ =>
        Some ((λ s, ET.get s "id") <$> _findall servers_el_0 "server")
    | [] => None
    end in
  mkRackspaceSharedIpGroup (Py.str (ET.get el "id")) (ET.get el "name") servers.

(** The [node_id] argument is [None], a node or an id. *)
Definition ex_create_ip_group `{!XMLParser} (group_name : string)
    (node_or_id : option NodeOrId) : Op RackspaceSharedIpGroup :=
  let node_id :=
    match node_or_id with
    | Some (IsNode n) => node_id n
    | Some (IsId i) => Some i
    | None => None
    end in
  let subelements :=
    match node_id with
    | Some i =>
        if Py.truthy (Some i) then [mkElement "server" {["id" := i]} None []]
        else []
    | None => []
    end in
  group_elm ← lift (tostring_tree "sharedIpGroup"
                      (Py.dict [ ("xmlns", Some NAMESPACE);
                                 ("name", Some group_name) ])
                      subelements);
  resp ← request (mkRequest "/shared_ip_groups" "POST" (Some group_elm));
  o ← object resp;
  el ← lift (element o);
  mret (_to_shared_ip_group el).

Definition ex_list_ip_groups `{!XMLParser} (details : bool)
  : Op (list RackspaceSharedIpGroup) :=
  let uri :=
    if details then "/shared_ip_groups/detail" else "/shared_ip_groups" in
  resp ← request (mkRequest uri "GET" None);
  o ← object resp;
  el ← lift (element o);
  let groups := _findall el "sharedIpGroup" in
  mret (_to_shared_ip_group <$> groups).

Definition ex_delete_ip_group (group_id : string) : Op bool :=
  let uri := "/shared_ip_groups/" +:+ group_id in
  resp ← request (mkRequest uri "DELETE" None);
  mret (status resp =? 204).

Definition ex_share_ip (group_id : string) (node_or_id : NodeOrId)
    (ip : string) (configure_node : bool) : Op bool :=
  let node_id :=
    match node_or_id with
    | IsNode n => node_id n
    | IsId i => Some i
    end in
  let str_configure := if configure_node then "true" else "false" in
  elm ← lift (tostring_Element "shareIp"
                (Py.dict [ ("xmlns", Some NAMESPACE);
                           ("sharedIpGroupId", Some group_id);
                           ("configureServer", Some str_configure) ]));
  let uri := "/servers/" +:+ Py.str node_id +:+ "/ips/public/" +:+ ip in
  resp ← request (mkRequest uri "PUT" (Some elm));
  mret (status resp =? 202).

Definition ex_unshare_ip (node_or_id : NodeOrId) (ip : string) : Op bool :=
  let node_id :=
    match node_or_id with
    | IsNode n => node_id n
    | IsId i => Some i
    end in
  let uri := "/servers/" +:+ Py.str node_id +:+ "/ips/public/" +:+ ip in
  resp ← request (mkRequest uri "DELETE" None);
  mret (status resp =? 202).

Definition destroy_node (node : Node) : Op bool :=
  let uri := "/servers/" +:+ Py.str (node_id node) in
  resp ← request (mkRequest uri "DELETE" None);
  mret (status resp =? 202).

(** [_to_ip_addresses]; [None] stands for the [IndexError] raised by the
    subscript [[0]] when the element has no [public] or no [private]
    child. *)
Definition _to_ip_addresses (el : Element) : option RackspaceNodeIpAddresses :=
  match _findall el "public" with
  | [] => None
  | public :: _ =>
      match _findall el "private" with
      | [] => None
      | private :: _ =>
          Some (mkRackspaceNodeIpAddresses
                  ((λ ip, ET.get ip "addr") <$> _findall public "ip")
                  ((λ ip, ET.get ip "addr") <$> _findall private "ip"))
      end
  end.

(** ** Notions used in the further statements *)




(** The requests of the operations that carry no payload. *)
Definition server_uri (node_id : option string) : string :=
  "/servers/" +:+ Py.str node_id.

(** The metadata extraction of the node mapper applied to a [server]
    element as [create_node] builds it, before namespaces are attached. *)
Definition payload_metadata (server_elm : Element)
  : gmap (option string) (option string) :=
  get_meta_dict
    (ET.select_child "meta"
       (filter (λ c, tag c = "metadata") (children server_elm))).

(** A run that sends one request by the given method, does not raise, and
    returns whether the status answered to this request is the given code. *)
Definition answers (op : Op bool) (c : Connection) (m : string) (code : Z)
  : Prop :=
  ∃ rq, sent op c = [rq] ∧ method rq = m
        ∧ outcome op c = Ok (bool_decide (status (transport c rq) = code)).

(** A run that either raises [TypeError] without sending anything, or sends
    exactly one request and ends otherwise. *)
Definition single_shot {A} (op : Op A) (c : Connection) : Prop :=
  (sent op c = [] ∧ outcome op c = Raise TypeError)
  ∨ (∃ rq, sent op c = [rq] ∧ outcome op c ≠ Raise TypeError).

(** A run that sends nothing and does not raise [TypeError]. *)
Definition quiet {A} (op : Op A) (c : Connection) : Prop :=
  sent op c = [] ∧ outcome op c ≠ Raise TypeError.

(** The keys of the [extra] dictionary that [_to_node] builds. *)
Definition extra_keys : gset string :=
  {[ "password"; "hostId"; "imageId"; "flavorId"; "uri"; "metadata" ]}.

(** ** Further sample data *)

Definition sample_servers : Element :=
  mkElement (qname "servers") ∅ None
    [ sample_server;
      mkElement (qname "server")
                (Py.dict [ ("id", "12346"); ("name", "db1");
                           ("status", "SHUTOFF") ])
                None [] ].

Definition servers_body : string :=
  "<servers" +:+ xmlns +:+ ">"
  +:+ "<server id='12345' name='web1' status='ACTIVE'/>"
  +:+ "<server id='12346' name='db1' status='SHUTOFF'/></servers>".

(** The parser table extended with the server listing. *)
Definition sample_XML_servers : XMLParser := λ s,
  if decide (s = servers_body) then Some sample_servers else sample_XML s.

(** * Properties *)

Lemma dict_snoc `{Countable K} {V} (l : list (K * V)) k v :
  Py.dict (l ++ [(k, v)]) = <[k := v]> (Py.dict l).
Proof. unfold Py.dict. by rewrite foldl_app. Qed.

Lemma NODE_STATE_MAP_assoc (s : string) :
  NODE_STATE_MAP !! s = assoc s spec_state_table.
Proof.
  unfold NODE_STATE_MAP, Py.dict; cbn [foldl fst snd].
  unfold spec_state_table; cbn [assoc].
  repeat (rewrite lookup_insert; repeat case_decide; subst; try done).
Qed.

Lemma assoc_not_key {V} (k : string) (l : list (string * V)) :
  k ∉ l.*1 → assoc k l = None.
Proof.
  induction l as [|[k' v] l IH]; [done|]; cbn.
  rewrite not_elem_of_cons. intros [Hne Hl].
  case_decide; [congruence | auto].
Qed.

Lemma spec_state_table_assoc (s : string) (st : NodeState) :
  (s, st) ∈ spec_state_table → assoc s spec_state_table = Some st.
Proof.
  unfold spec_state_table. rewrite !elem_of_cons, elem_of_nil.
  intros H; repeat (destruct H as [H|H]; [by inversion H|]); done.
Qed.

Lemma _to_node_state (c : Connection) (el : Element) :
  node_state (_to_node c el) = NODE_STATE_MAP_get (ET.get el "status").
Proof. reflexivity. Qed.

(** C1: the state given to a mapped node is the one the fixed table gives to
    the provider status string when the string is in the table, and UNKNOWN
    for every string outside the table and for a missing status; the mapping
    is a total function, so it yields a state on every input. *)
Theorem node_state_normalisation (c : Connection) (el : Element) :
  (∀ s st, (s, st) ∈ spec_state_table →
           ET.get el "status" = Some s → node_state (_to_node c el) = st)
  ∧ (∀ s, s ∉ spec_state_table.*1 →
          ET.get el "status" = Some s → node_state (_to_node c el) = UNKNOWN)
  ∧ (ET.get el "status" = None → node_state (_to_node c el) = UNKNOWN).
Proof.
  rewrite _to_node_state. split_and!.
  - intros s st Hin ->. cbn. rewrite NODE_STATE_MAP_assoc.
    by rewrite (spec_state_table_assoc _ _ Hin).
  - intros s Hout ->. cbn. rewrite NODE_STATE_MAP_assoc.
    by rewrite (assoc_not_key _ _ Hout).
  - by intros ->.
Qed.

(** *** Element lookup *)

Lemma select_child_singleton (tg : string) (el : Element) :
  ET.select_child tg [el] = filter (λ c, tag c = tg) (children el).
Proof. unfold ET.select_child. cbn. by rewrite app_nil_r. Qed.

Lemma _fixxpath_steps_1 (a : string) :
  ET.steps false (_fixxpath a) = [qname a] →
  ∀ el, _findall el a = filter (λ c, tag c = qname a) (children el).
Proof.
  intros Hs el. unfold _findall, ET.findall. rewrite Hs. cbn [foldl].
  apply select_child_singleton.
Qed.

Lemma _fixxpath_steps_2 (p a b : string) :
  ET.steps false (_fixxpath p) = [qname a; qname b] →
  ∀ el, _findall el p =
        ET.select_child (qname b) (filter (λ c, tag c = qname a) (children el)).
Proof.
  intros Hs el. unfold _findall, ET.findall. rewrite Hs. cbn [foldl].
  by rewrite select_child_singleton.
Qed.

Lemma _findall_image (el : Element) :
  _findall el "image" = filter (λ c, tag c = qname "image") (children el).
Proof. apply _fixxpath_steps_1. vm_compute. reflexivity. Qed.

Lemma _findall_metadata_meta (el : Element) :
  _findall el "metadata/meta" =
  ET.select_child (qname "meta")
    (filter (λ c, tag c = qname "metadata") (children el)).
Proof. apply _fixxpath_steps_2. vm_compute. reflexivity. Qed.

Lemma _findall_absolute_limit (el : Element) :
  _findall el "absolute/limit" =
  ET.select_child (qname "limit")
    (filter (λ c, tag c = qname "absolute") (children el)).
Proof. apply _fixxpath_steps_2. vm_compute. reflexivity. Qed.

(** *** Images *)

Lemma _to_images_of_filter (c : Connection) (elements : list Element) :
  _to_images_of c elements = _to_image c <$> filter is_active elements.
Proof.
  induction elements as [|el l IH]; [done|]. cbn [_to_images_of].
  rewrite filter_cons. unfold is_active at 1.
  repeat case_decide; try done; by rewrite ?fmap_cons, IH.
Qed.

Lemma _to_image_status (c : Connection) (el : Element) :
  image_extra (_to_image c el) !! "status" = Some (ET.get el "status").
Proof.
  unfold _to_image, Py.dict; cbn [image_extra foldl fst snd].
  by repeat (rewrite lookup_insert; case_decide; try done).
Qed.

(** C2: the image list holds, in document order, exactly one mapped image for
    each image element of the decoded tree whose status attribute equals
    "ACTIVE" (so there are as many images as such elements), and every image
    of the list comes from an element whose status attribute is "ACTIVE". *)
Theorem active_images_only (c : Connection) (object : Element) :
  let image_elements :=
    filter (λ el, tag el = qname "image") (children object) in
  _to_images c object = _to_image c <$> filter is_active image_elements
  ∧ length (_to_images c object) = length (filter is_active image_elements)
  ∧ Forall (λ i, ∃ el, el ∈ image_elements ∧ is_active el ∧ i = _to_image c el
                       ∧ image_extra i !! "status" = Some (Some "ACTIVE"))
           (_to_images c object).
Proof.
  intros image_elements.
  assert (_to_images c object = _to_image c <$> filter is_active image_elements)
    as Heq.
  { unfold _to_images. by rewrite _to_images_of_filter, _findall_image. }
  split_and!; [done | by rewrite Heq, length_fmap |].
  rewrite Heq. apply Forall_forall. intros i Hi.
  apply list_elem_of_fmap in Hi as (el & -> & Hel).
  apply list_elem_of_filter in Hel as [Hact Hel]. exists el.
  split_and!; [done..|]. rewrite _to_image_status. by rewrite Hact.
Qed.

(** Three image elements with statuses ACTIVE, SAVING, ACTIVE give two images. *)
Example active_images_sample (c : Connection) :
  (λ el, ET.get el "status") <$> children sample_images
    = [Some "ACTIVE"; Some "SAVING"; Some "ACTIVE"]
  ∧ image_id <$> _to_images c sample_images = [Some "1"; Some "3"].
Proof. split; vm_compute; reflexivity. Qed.

(** *** Running operations *)

Ltac run_op :=
  unfold sent, outcome, mbind, Op_bind, mret, Op_ret, lift, request, object,
    connection; cbn [fst snd].

Lemma modify_body_name (name password : option string) :
  modify_body name password !! "name" = Some name.
Proof.
  unfold modify_body, Py.dict; cbn [foldl fst snd].
  destruct password; by repeat (rewrite lookup_insert; case_decide; try done).
Qed.

Lemma modify_body_serialisable (nm : string) (password : option string) :
  map_Forall (λ _ v, is_Some v) (modify_body (Some nm) password).
Proof.
  unfold modify_body, Py.dict; cbn [foldl fst snd].
  destruct password; repeat (apply map_Forall_insert_2; [by eexists|]);
    apply map_Forall_empty.
Qed.

Lemma tostring_Element_Some (tg : string) (attrs : gmap string (option string)) :
  map_Forall (λ _ v, is_Some v) attrs →
  tostring_Element tg attrs = Ok (mkElement tg (omap id attrs) None []).
Proof. intros H. unfold tostring_Element. by case_decide. Qed.

Lemma tostring_Element_None (tg k : string) (attrs : gmap string (option string)) :
  attrs !! k = Some None → tostring_Element tg attrs = Raise TypeError.
Proof.
  intros Hk. unfold tostring_Element. case_decide as H; [|done].
  apply (map_Forall_lookup_1 _ _ _ _ H) in Hk. by destruct Hk.
Qed.

Lemma _change_password_or_name_run (c : Connection) (node : Node)
    (name password : option string) :
  _change_password_or_name node name password c =
  match modify_name node name with
  | None => ([], Raise TypeError)
  | Some nm =>
      let rq := modify_request node nm password in
      let ok := status (transport c rq) =? 204 in
      ([rq],
       Ok (ok,
           match password with
           | Some p => if ok then set_extra "password" (VStr p) node else node
           | None => node
           end))
  end.
Proof.
  unfold _change_password_or_name. fold (modify_name node name).
  fold (modify_body (modify_name node name) password).
  destruct (modify_name node name) as [nm|]; run_op.
  - by rewrite (tostring_Element_Some _ _ (modify_body_serialisable nm password)).
  - by rewrite (tostring_Element_None _ "name" _ (modify_body_name None password)).
Qed.

(** C3: when [ex_set_password] has sent its request and the transport
    answers with status 204, the operation returns true and the node it was
    given has its extra password field set to the new password, every other
    field and every other extra entry being as before; when the transport
    answers with any other status, the operation returns false and the node
    is unchanged. *)
Theorem set_password_effect (c : Connection) (n : Node) (p : string)
    (rq : Request) :
  sent (ex_set_password n p) c = [rq] →
  (status (transport c rq) = 204 →
     ∃ n', outcome (ex_set_password n p) c = Ok (true, n')
           ∧ node_extra n' = <["password" := VStr p]> (node_extra n)
           ∧ node_id n' = node_id n ∧ node_name n' = node_name n
           ∧ node_state n' = node_state n
           ∧ node_public_ip n' = node_public_ip n
           ∧ node_private_ip n' = node_private_ip n
           ∧ node_driver n' = node_driver n)
  ∧ (status (transport c rq) ≠ 204 →
     outcome (ex_set_password n p) c = Ok (false, n)).
Proof.
  unfold sent, outcome, ex_set_password.
  rewrite _change_password_or_name_run.
  destruct (modify_name n None) as [nm|]; [|done]. cbn [fst snd].
  intros [= <-]. split.
  - intros ->. cbn. by eexists.
  - intros Hne. apply Z.eqb_neq in Hne. by rewrite Hne.
Qed.

(** A request is sent by [ex_set_password] exactly when the node has a name
    to put in the payload. *)
Lemma set_password_sends (c : Connection) (n : Node) (p : string) :
  match node_name n with
  | Some nm => sent (ex_set_password n p) c = [modify_request n nm (Some p)]
  | None => sent (ex_set_password n p) c = []
            ∧ outcome (ex_set_password n p) c = Raise TypeError
  end.
Proof.
  unfold sent, outcome, ex_set_password.
  rewrite _change_password_or_name_run. unfold modify_name. cbn.
  by destruct (node_name n).
Qed.

(** C10: every request sent by the modify operation carries a [server]
    element with a name attribute; the attribute is the caller's name when
    one is supplied, and the node's current name when the caller supplies no
    name or an empty one, also when only the password changes.  A request is
    sent whenever such a name exists. *)
Theorem modify_payload_has_name (c : Connection) (n : Node)
    (name password : option string) :
  Forall (λ rq, ∃ e nm, data rq = Some e ∧ ET.get e "name" = Some nm
                        ∧ (Py.truthy name = true → name = Some nm)
                        ∧ (Py.truthy name = false → node_name n = Some nm))
         (sent (_change_password_or_name n name password) c)
  ∧ (∀ nm, (if Py.truthy name then name else node_name n) = Some nm →
           ∃ rq, sent (_change_password_or_name n name password) c = [rq]).
Proof.
  unfold sent. rewrite _change_password_or_name_run.
  unfold modify_name. split.
  - destruct (if Py.truthy name then name else node_name n) as [nm|] eqn:Hn;
      cbn [fst]; [|constructor].
    repeat constructor. eexists _, nm. cbn [data modify_request].
    split_and!; [done| |by intros Ht; rewrite Ht in Hn..].
    unfold ET.get; cbn [attrib]. rewrite lookup_omap.
    by rewrite modify_body_name.
  - intros nm ->. by eexists.
Qed.

(** *** Node details *)

(** C4: [ex_get_node_details] sends one GET request for the node; when the
    transport answers with status 404 the operation returns the not-found
    sentinel [None], neither raising nor building a node, whatever the body;
    when it answers with a 2xx status the result is the body decoded by the
    response class and then mapped by [_to_node], so a body that decodes to
    a tree gives the node mapped from that tree. *)
Theorem get_node_details_result `{!XMLParser} (c : Connection) (x : NodeOrId) :
  let rq := details_request x in
  let resp := transport c rq in
  sent (ex_get_node_details x) c = [rq]
  ∧ (status resp = 404 → outcome (ex_get_node_details x) c = Ok None)
  ∧ (200 ≤ status resp ≤ 299 →
       outcome (ex_get_node_details x) c
         = (o ← parse_body (driver c) resp; el ← element o;
            mret (Some (_to_node c el)))
       ∧ ∀ el, parse_body (driver c) resp = Ok (OTree el) →
               outcome (ex_get_node_details x) c = Ok (Some (_to_node c el))).
Proof.
  intros rq resp. unfold ex_get_node_details.
  fold (details_request x). fold rq. run_op. fold resp.
  destruct (status resp =? 404) eqn:H404.
  - apply Z.eqb_eq in H404. split_and!; [done..|lia].
  - split_and!.
    + by destruct (parse_body (driver c) resp) as [[]|].
    + intros E. apply Z.eqb_neq in H404. done.
    + intros _. split.
      * by destruct (parse_body (driver c) resp) as [[]|].
      * by intros el ->.
Qed.

(** *** Saving an image *)

(** C9: [ex_save_image] maps the image element of the response with
    [_to_image] and applies no status filter: once the request is sent and
    the response decodes to an element, the operation returns the image
    mapped from it, whose extra status is the element's status attribute,
    whatever that attribute is, also when it is not "ACTIVE". *)
Theorem save_image_unfiltered `{!XMLParser} (c : Connection) (n : Node)
    (name : string) (rq : Request) (el : Element) :
  sent (ex_save_image n name) c = [rq] →
  parse_body (driver c) (transport c rq) = Ok (OTree el) →
  outcome (ex_save_image n name) c = Ok (_to_image c el)
  ∧ image_extra (_to_image c el) !! "status" = Some (ET.get el "status").
Proof.
  intros Hs Hp. split; [|apply _to_image_status].
  revert Hs Hp. unfold ex_save_image. run_op.
  destruct (tostring_Element _ _) as [e|]; cbn [fst snd]; [|done].
  destruct (parse_body (driver c) (transport c _)) as [o|] eqn:Hp;
    cbn [fst snd].
  - destruct o; cbn; intros [= <-]; rewrite Hp; by intros [= <-].
  - intros [= <-]. by rewrite Hp.
Qed.

(** *** Dictionaries filled in a loop *)

Section fill.
Context {A : Type} `{Countable K} {V : Type}.
Variables (key : A → K) (val : A → V).
Implicit Types (d : gmap K V) (l : list A).

Lemma fill_app d l1 l2 :
  fill key val d (l1 ++ l2) = fill key val (fill key val d l1) l2.
Proof. apply foldl_app. Qed.

Lemma fill_other d l k :
  Forall (λ x, key x ≠ k) l → fill key val d l !! k = d !! k.
Proof.
  revert d. induction l as [|x l IH]; intros d Hl; [done|].
  apply Forall_cons in Hl as [Hx Hl].
  change (fill key val d (x :: l))
    with (fill key val (<[key x := val x]> d) l).
  rewrite (IH _ Hl). by rewrite lookup_insert_ne.
Qed.

Lemma fill_last_writer d pre x post :
  Forall (λ y, key y ≠ key x) post →
  fill key val d (pre ++ x :: post) !! key x = Some (val x).
Proof.
  intros Hpost. rewrite fill_app.
  change (fill key val ?d0 (x :: post))
    with (fill key val (<[key x := val x]> d0) post).
  rewrite (fill_other _ _ _ Hpost). apply lookup_insert_eq.
Qed.

Lemma fill_unique d l x :
  NoDup (key <$> l) → x ∈ l → fill key val d l !! key x = Some (val x).
Proof.
  intros Hnd Hx. apply list_elem_of_split in Hx as (pre & post & ->).
  apply fill_last_writer. rewrite fmap_app, fmap_cons in Hnd.
  apply NoDup_app in Hnd as (_ & _ & Hnd). apply NoDup_cons in Hnd as [Hx _].
  apply Forall_forall. intros y Hy Heq. apply Hx. rewrite <- Heq.
  by apply list_elem_of_fmap_2.
Qed.
End fill.

(** *** Limits *)

Lemma update_singleton `{Countable K} {V} (d : gmap K V) k v :
  update d {[k := v]} = <[k := v]> d.
Proof. unfold update. by rewrite insert_union_singleton_l. Qed.

(** C7: when the limits response decodes to a tree, [ex_limits] returns an
    absolute-limits map that is the result of storing the name and value of
    each absolute-limit element, in element order, into an empty map; hence
    the value found under a name is that of the last element carrying this
    name, and a name carried by no element is absent. *)
Theorem absolute_limits_overwrite_merge `{!XMLParser} (c : Connection)
    (limits : Element) :
  parse_body (driver c) (transport c limits_request) = Ok (OTree limits) →
  ∃ l, outcome ex_limits c = Ok l
       ∧ absolute l = fill (λ el, ET.get el "name") (λ el, ET.get el "value")
                           ∅ (absolute_elements limits)
       ∧ (∀ pre el post,
            absolute_elements limits = pre ++ el :: post →
            Forall (λ el', ET.get el' "name" ≠ ET.get el "name") post →
            absolute l !! ET.get el "name" = Some (ET.get el "value"))
       ∧ (∀ k, Forall (λ el, ET.get el "name" ≠ k) (absolute_elements limits) →
               absolute l !! k = None).
Proof.
  intros Hp. unfold ex_limits. fold limits_request. run_op. rewrite Hp.
  cbn -[_findall]. eexists. split; [done|]. cbn [absolute].
  rewrite _findall_absolute_limit. fold (absolute_elements limits).
  assert (∀ l d, foldl (λ absolute item, update absolute (_to_absolute item)) d l
                 = fill (λ el, ET.get el "name") (λ el, ET.get el "value") d l)
    as ->.
  { induction l as [|x l IH]; intros d; [done|]. cbn.
    unfold _to_absolute at 2. rewrite update_singleton. apply IH. }
  split_and!; [done| |].
  - intros pre el post -> Hpost.
    by apply (fill_last_writer (λ el, ET.get el "name")
                               (λ el, ET.get el "value")).
  - intros k Hk. by rewrite fill_other.
Qed.

(** Two elements named RAM, with values 10 then 20: the map has RAM = 20. *)
Example absolute_limits_sample :
  fill (λ el, ET.get el "name") (λ el, ET.get el "value") ∅
       (_findall sample_limits "absolute/limit") !! Some "RAM"
  = Some (Some "20").
Proof. vm_compute. reflexivity. Qed.

(** *** Metadata *)

Lemma get_meta_dict_meta_elms (items : list (string * string)) :
  get_meta_dict (meta_elm <$> items)
  = fill (λ kv, Some kv.1) (λ kv, Some kv.2) ∅ items.
Proof.
  unfold get_meta_dict, fill. generalize (∅ : gmap (option string) (option string)).
  induction items as [|kv items IH]; intros d; [done|].
  cbn [fmap list_fmap foldl]. rewrite <- IH. f_equal.
Qed.




(** The map of the specification's example. *)
Example metadata_roundtrip_sample :
  ∃ e, _metadata_to_xml (Py.dict [ ("env", "prod"); ("tier", "1") ]) = Some e
       ∧ get_meta_dict (children e)
         = Py.dict [ (Some "env", Some "prod"); (Some "tier", Some "1") ].
Proof. eexists. split; [vm_compute; reflexivity|]. apply map_eq. intros k. vm_compute. reflexivity. Qed.

(** *** Error interpretation *)




(** *** Content type of OpenStack responses *)

Lemma has_content_type_lowercase_key (r : Response) (content_type v : string) :
  headers r !! "content-type" = Some v →
  OpenStackResponse.has_content_type r content_type
  = Ok (bool_decide (Py.find (Py.lower v) (Py.lower content_type) > -1)).
Proof.
  intros Hv. unfold OpenStackResponse.has_content_type.
  assert (filter (λ kv : string * string, Py.lower kv.1 = "content-type")
                 (headers r) !! "content-type" = Some v) as Hf.
  { by apply map_lookup_filter_Some_2. }
  case_decide as He; [by rewrite He in Hf|]. by rewrite Hf.
Qed.

Lemma has_content_type_absent (r : Response) (content_type : string) :
  (∀ k, is_Some (headers r !! k) → Py.lower k ≠ "content-type") →
  OpenStackResponse.has_content_type r content_type = Ok false.
Proof.
  intros Hno. unfold OpenStackResponse.has_content_type.
  case_decide as He; [done|]. destruct He.
  apply map_empty_filter_2. intros k v Hk. cbn. by apply Hno.
Qed.

Lemma has_content_type_other_case (r : Response) (content_type k : string) :
  is_Some (headers r !! k) → Py.lower k = "content-type" →
  headers r !! "content-type" = None →
  OpenStackResponse.has_content_type r content_type
  = Raise (KeyError "content-type").
Proof.
  intros [v Hk] Hl Hnone. unfold OpenStackResponse.has_content_type.
  case_decide as He.
  - by destruct (map_filter_empty_not_lookup _ _ k v He Hl).
  - assert (filter (λ kv : string * string, Py.lower kv.1 = "content-type")
                   (headers r) !! "content-type" = None) as ->; [|done].
    apply map_lookup_filter_None_2. by left.
Qed.

(** With header names in lower case, as [httplib] delivers them, decoding is
    lenient: the body is parsed only when it is not empty and the
    content-type value contains "application/xml", case ignored. *)
Lemma openstack_parse_body_lowercase `{!XMLParser} (r : Response) :
  (∀ k, is_Some (headers r !! k) → Py.lower k = "content-type" →
        k = "content-type") →
  OpenStackResponse.parse_body r =
  match headers r !! "content-type" with
  | Some v =>
      if bool_decide (Py.find (Py.lower v) "application/xml" > -1)
         && negb (body_is_empty r)
      then match XML (body r) with
           | Some b => Ok (OTree b)
           | None => Raise (MalformedResponseError "Failed to parse XML" (body r))
           end
      else Ok (ORaw (body r))
  | None => Ok (ORaw (body r))
  end.
Proof.
  intros Hlow. unfold OpenStackResponse.parse_body.
  destruct (headers r !! "content-type") as [v|] eqn:Hv.
  - rewrite (has_content_type_lowercase_key _ _ _ Hv). cbn.
    change (Py.lower "application/xml") with "application/xml".
    by destruct (bool_decide _), (body_is_empty r).
  - rewrite has_content_type_absent; [done|].
    intros k Hk Hl. rewrite (Hlow k Hk Hl) in Hk. rewrite Hv in Hk.
    by destruct Hk.
Qed.


(** *** The theorems on the sample data *)

Ltac compute_eq := vm_compute; reflexivity.

Lemma node_state_normalisation_witness :
  let c := sample_connection (answering 200 server_body "OK") in
  (("ACTIVE", RUNNING) ∈ spec_state_table
   ∧ ET.get sample_server "status" = Some "ACTIVE"
   ∧ node_state (_to_node c sample_server) = RUNNING)
  ∧ (("SAVING" ∉ spec_state_table.*1)
     ∧ ET.get (sample_image "7" "SAVING") "status" = Some "SAVING"
     ∧ node_state (_to_node c (sample_image "7" "SAVING")) = UNKNOWN).
Proof.
  intros c.
  assert (("ACTIVE", RUNNING) ∈ spec_state_table) as Hin.
  { apply (bool_decide_unpack _). vm_compute. exact I. }
  assert ("SAVING" ∉ spec_state_table.*1) as Hout.
  { apply (bool_decide_unpack _). vm_compute. exact I. }
  assert (ET.get sample_server "status" = Some "ACTIVE") as Ha by compute_eq.
  assert (ET.get (sample_image "7" "SAVING") "status" = Some "SAVING") as Hs
    by compute_eq.
  split; (split; [assumption | split; [assumption|]]).
  - exact (proj1 (node_state_normalisation c sample_server) _ _ Hin Ha).
  - exact (proj1 (proj2 (node_state_normalisation c (sample_image "7" "SAVING")))
                 _ Hout Hs).
Defined.

Lemma set_password_effect_witness :
  let rq := modify_request sample_node "web1" (Some "s3cret") in
  let accepted := sample_connection (answering 204 "" "No Content") in
  let refused := sample_connection (answering 202 "" "Accepted") in
  (sent (ex_set_password sample_node "s3cret") accepted = [rq]
   ∧ status (transport accepted rq) = 204
   ∧ ∃ n', outcome (ex_set_password sample_node "s3cret") accepted
             = Ok (true, n')
           ∧ node_extra n' !! "password" = Some (VStr "s3cret"))
  ∧ (sent (ex_set_password sample_node "s3cret") refused = [rq]
     ∧ status (transport refused rq) ≠ 204
     ∧ outcome (ex_set_password sample_node "s3cret") refused
       = Ok (false, sample_node)).
Proof.
  intros rq accepted refused.
  assert (sent (ex_set_password sample_node "s3cret") accepted = [rq]) as Hs1
    by compute_eq.
  assert (sent (ex_set_password sample_node "s3cret") refused = [rq]) as Hs2
    by compute_eq.
  assert (status (transport accepted rq) = 204) as H204 by reflexivity.
  assert (status (transport refused rq) ≠ 204) as H202 by discriminate.
  split; (split; [assumption | split; [assumption|]]).
  - destruct (proj1 (set_password_effect accepted sample_node "s3cret" rq Hs1)
                H204) as (n' & Ho & He & _).
    exists n'. split; [exact Ho|]. rewrite He. apply lookup_insert_eq.
  - exact (proj2 (set_password_effect refused sample_node "s3cret" rq Hs2) H202).
Defined.

Lemma get_node_details_result_witness :
  let missing := sample_connection (answering 404 "" "Not Found") in
  let found := sample_connection (answering 200 server_body "OK") in
  (status (transport missing (details_request (IsId "12345"))) = 404
   ∧ outcome (@ex_get_node_details sample_XML (IsId "12345")) missing = Ok None)
  ∧ (200 ≤ status (transport found (details_request (IsId "12345"))) ≤ 299
     ∧ @parse_body sample_XML (driver found)
         (transport found (details_request (IsId "12345")))
       = Ok (OTree sample_server)
     ∧ outcome (@ex_get_node_details sample_XML (IsId "12345")) found
       = Ok (Some (_to_node found sample_server))).
Proof.
  intros missing found.
  assert (200 ≤ status (transport found (details_request (IsId "12345"))) ≤ 299)
    as H2xx by (cbn; lia).
  assert (@parse_body sample_XML (driver found)
            (transport found (details_request (IsId "12345")))
          = Ok (OTree sample_server)) as Hp by compute_eq.
  split.
  - split; [reflexivity|].
    exact (proj1 (proj2 (@get_node_details_result sample_XML missing
                           (IsId "12345"))) eq_refl).
  - split; [exact H2xx | split; [exact Hp|]].
    exact (proj2 (proj2 (proj2 (@get_node_details_result sample_XML found
                                  (IsId "12345"))) H2xx) _ Hp).
Defined.



Lemma absolute_limits_overwrite_merge_witness :
  let c := sample_connection (answering 200 limits_body "OK") in
  @parse_body sample_XML (driver c) (transport c limits_request)
    = Ok (OTree sample_limits)
  ∧ absolute_elements sample_limits
    = [sample_limit "RAM" "10"; sample_limit "RAM" "20"]
  ∧ ∃ l, outcome (@ex_limits sample_XML) c = Ok l
         ∧ absolute l !! Some "RAM" = Some (Some "20").
Proof.
  intros c.
  assert (@parse_body sample_XML (driver c) (transport c limits_request)
          = Ok (OTree sample_limits)) as Hp by compute_eq.
  assert (absolute_elements sample_limits
          = [sample_limit "RAM" "10"] ++ sample_limit "RAM" "20" :: [])
    as He by compute_eq.
  split; [exact Hp | split; [exact He|]].
  destruct (@absolute_limits_overwrite_merge sample_XML c sample_limits Hp)
    as (l & Ho & _ & Hlast & _).
  exists l. split; [exact Ho|].
  exact (Hlast _ _ _ He (Forall_nil_2 _)).
Defined.

Lemma save_image_unfiltered_witness :
  let c := sample_connection (answering 200 image_body "OK") in
  let rq :=
    mkRequest "/images" "POST"
      (Some (mkElement "image"
               (Py.dict [ ("xmlns", NAMESPACE); ("name", "nightly");
                          ("serverId", "12345") ]) None [])) in
  sent (@ex_save_image sample_XML sample_node "nightly") c = [rq]
  ∧ @parse_body sample_XML (driver c) (transport c rq)
    = Ok (OTree (sample_image "7" "SAVING"))
  ∧ outcome (@ex_save_image sample_XML sample_node "nightly") c
    = Ok (_to_image c (sample_image "7" "SAVING"))
  ∧ image_extra (_to_image c (sample_image "7" "SAVING")) !! "status"
    = Some (Some "SAVING").
Proof.
  intros c rq.
  assert (sent (@ex_save_image sample_XML sample_node "nightly") c = [rq])
    as Hs by compute_eq.
  assert (@parse_body sample_XML (driver c) (transport c rq)
          = Ok (OTree (sample_image "7" "SAVING"))) as Hp by compute_eq.
  split; [exact Hs | split; [exact Hp|]].
  destruct (@save_image_unfiltered sample_XML c sample_node "nightly" rq _ Hs Hp)
    as [Ho Hst].
  split; [exact Ho|]. rewrite Hst. compute_eq.
Defined.

Lemma modify_payload_has_name_witness :
  let c := sample_connection (answering 204 "" "No Content") in
  (if Py.truthy None then None else node_name sample_node) = Some "web1"
  ∧ ∃ rq e, sent (_change_password_or_name sample_node None (Some "s3cret")) c
            = [rq]
            ∧ data rq = Some e ∧ ET.get e "name" = Some "web1".
Proof.
  intros c.
  destruct (modify_payload_has_name c sample_node None (Some "s3cret"))
    as [Hall Hsent].
  split; [reflexivity|].
  destruct (Hsent "web1" eq_refl) as [rq Hrq]. rewrite Hrq in Hall.
  apply Forall_cons in Hall as [(e & nm & Hd & Hn & _ & Hnode) _].
  exists rq, e. split; [exact Hrq | split; [exact Hd|]].
  rewrite Hn. symmetry. exact (Hnode eq_refl).
Defined.


(** * Further properties *)

(** *** Namespace-qualified paths *)


















(** *** Runs of the operations *)

Lemma tostring_tree_cases (tg : string) (attrs : gmap string (option string))
    (subelements : list Element) :
  tostring_tree tg attrs subelements = Raise TypeError
  ∨ tostring_tree tg attrs subelements
    = Ok (mkElement tg (omap id attrs) None subelements).
Proof. unfold tostring_tree. case_decide; auto. Qed.

Lemma tostring_Element_cases (tg : string) (attrs : gmap string (option string)) :
  tostring_Element tg attrs = Raise TypeError
  ∨ tostring_Element tg attrs = Ok (mkElement tg (omap id attrs) None []).
Proof. unfold tostring_Element. case_decide; auto. Qed.

Lemma dict_serialisable (items : list (string * option string)) :
  Forall (λ kv, is_Some kv.2) items →
  map_Forall (λ _ v, is_Some v) (Py.dict items).
Proof.
  unfold Py.dict.
  assert (map_Forall (λ (_ : string) (v : option string), is_Some v)
                     (∅ : gmap string (option string))) as H0
    by apply map_Forall_empty.
  revert H0. generalize (∅ : gmap string (option string)).
  induction items as [|[k v] items IH]; intros d Hd Hall; [done|].
  apply Forall_cons in Hall as [Hv Hall]. cbn.
  apply IH; [|done]. by apply map_Forall_insert_2.
Qed.

Lemma has_content_type_not_TypeError (r : Response) (content_type : string) :
  OpenStackResponse.has_content_type r content_type ≠ Raise TypeError.
Proof.
  unfold OpenStackResponse.has_content_type. case_decide; [done|].
  by destruct (_ !! "content-type").
Qed.

Lemma parse_body_not_TypeError `{!XMLParser} (d : Driver) (r : Response) :
  parse_body d r ≠ Raise TypeError.
Proof.
  destruct d; cbn;
    unfold RackspaceResponse.parse_body, OpenStackResponse.parse_body.
  1,2: destruct (body_is_empty r); [done|]; by destruct (XML (body r)).
  pose proof (has_content_type_not_TypeError r "application/xml") as Hh.
  destruct (OpenStackResponse.has_content_type r "application/xml") as [h|e];
    cbn; [|congruence].
  destruct (negb h || body_is_empty r); [done|]. by destruct (XML (body r)).
Qed.

Lemma mret_quiet {A} (a : A) (c : Connection) : quiet (mret a) c.
Proof. by split. Qed.

Lemma connection_quiet {A} (k : Connection → Op A) (c : Connection) :
  quiet (k c) c → quiet (c' ← connection; k c') c.
Proof.
  unfold quiet, sent, outcome. run_op. intros [Hs Ho].
  destruct (k c c) as [l r]. cbn in *. by subst l.
Qed.

Lemma decode_quiet `{!XMLParser} {A} (resp : Response) (k : Element → Op A)
    (c : Connection) :
  (∀ el, quiet (k el) c) →
  quiet (o ← object resp; el ← lift (element o); k el) c.
Proof.
  intros Hk. unfold quiet, sent, outcome. run_op.
  pose proof (parse_body_not_TypeError (driver c) resp) as Hp.
  destruct (parse_body (driver c) resp) as [[| |e]|]; cbn;
    try (split; [done|congruence]).
  destruct (Hk e) as [Hs Ho]. unfold sent, outcome in Hs, Ho.
  destruct (k e c) as [l r]. cbn in *. by subst l.
Qed.

(** An operation that sends a request and maps the decoded tree. *)
Lemma fetch_run `{!XMLParser} {A} (rq : Request) (f : Connection → Element → A)
    (c : Connection) :
  (resp ← request rq; o ← object resp; el ← lift (element o);
   c' ← connection; mret (f c' el)) c
  = ([rq], o ← parse_body (driver c) (transport c rq); el ← element o;
           Ok (f c el)).
Proof.
  run_op. destruct (parse_body (driver c) (transport c rq)) as [[| |]|]; done.
Qed.

(** An operation that sends a request and goes on quietly. *)
Lemma request_single_shot {A} (rq : Request) (k : Response → Op A)
    (c : Connection) :
  (∀ resp, quiet (k resp) c) →
  single_shot (resp ← request rq; k resp) c.
Proof.
  intros Hk. right. exists rq. unfold sent, outcome. run_op.
  destruct (Hk (transport c rq)) as [Hs Ho]. unfold sent, outcome in Hs, Ho.
  destruct (k (transport c rq) c) as [l r]. cbn in *. by subst l.
Qed.

(** An operation that serialises a payload, sends it and goes on quietly. *)
Lemma send_single_shot {A} (payload : result Element) (rq : Element → Request)
    (k : Response → Op A) (c : Connection) :
  (payload = Raise TypeError ∨ ∃ e, payload = Ok e) →
  (∀ resp, quiet (k resp) c) →
  single_shot (elm ← lift payload; resp ← request (rq elm); k resp) c.
Proof.
  intros [->|[e ->]] Hk; [by left|]. right. exists (rq e).
  unfold sent, outcome. run_op. cbn.
  destruct (Hk (transport c (rq e))) as [Hs Ho]. unfold sent, outcome in Hs, Ho.
  destruct (k (transport c (rq e)) c) as [l r]. cbn in *. by subst l.
Qed.

Ltac payload_cases :=
  match goal with
  | |- context [tostring_tree ?t ?a ?l] =>
      destruct (tostring_tree_cases t a l) as [H1|H1]; rewrite H1; eauto
  | |- context [tostring_Element ?t ?a] =>
      destruct (tostring_Element_cases t a) as [H1|H1]; rewrite H1; eauto
  end.

Ltac quiet_tail :=
  repeat first
    [ apply mret_quiet
    | apply connection_quiet
    | apply decode_quiet; intros ?
    | intros ? ].

(** X3: the listing, detail, modify, create, save-image, ip-group,
    resize, rebuild, share-ip and destroy operations run in one shot: either
    the payload cannot be serialised, and then TypeError is raised and
    nothing is sent, or exactly one request is sent and the outcome is not
    TypeError; none of them sends a second request. *)
Theorem operations_single_shot `{!XMLParser} `{!Base64} (c : Connection)
    (n : Node) (x : NodeOrId) (i : ImageOrId) (s : NodeSize)
    (name password : option string) (text ip : string) (b : bool)
    (member : option NodeOrId) (kwargs : CreateArgs) :
  single_shot list_nodes c ∧ single_shot list_images c
  ∧ single_shot ex_limits c ∧ single_shot (ex_list_ip_groups b) c
  ∧ single_shot (ex_get_node_details x) c
  ∧ single_shot (_change_password_or_name n name password) c
  ∧ single_shot (create_node kwargs) c
  ∧ single_shot (ex_save_image n text) c
  ∧ single_shot (ex_create_ip_group text member) c
  ∧ single_shot (ex_resize n s) c ∧ single_shot (ex_confirm_resize n) c
  ∧ single_shot (ex_revert_resize n) c ∧ single_shot (ex_rebuild x i) c
  ∧ single_shot (ex_share_ip text x ip b) c
  ∧ single_shot (ex_unshare_ip x ip) c
  ∧ single_shot (ex_delete_ip_group text) c
  ∧ single_shot (destroy_node n) c.
Proof.
  split_and!.
  - apply request_single_shot. quiet_tail.
  - apply request_single_shot. quiet_tail.
  - apply request_single_shot. quiet_tail.
  - apply request_single_shot. quiet_tail.
  - apply request_single_shot. intros resp.
    destruct (status resp =? 404); quiet_tail.
  - unfold single_shot, sent, outcome. rewrite _change_password_or_name_run.
    destruct (modify_name n name); [right; by eexists | by left].
  - apply send_single_shot; [|quiet_tail].
    payload_cases.
  - apply send_single_shot; [|quiet_tail].
    payload_cases.
  - apply send_single_shot; [|quiet_tail].
    payload_cases.
  - apply send_single_shot; [|quiet_tail].
    payload_cases.
  - apply send_single_shot; [|quiet_tail].
    payload_cases.
  - apply send_single_shot; [|quiet_tail].
    payload_cases.
  - apply send_single_shot; [|quiet_tail].
    payload_cases.
  - apply send_single_shot; [|quiet_tail].
    payload_cases.
  - apply request_single_shot. quiet_tail.
  - apply request_single_shot. quiet_tail.
  - apply request_single_shot. quiet_tail.
Qed.


(** *** Operations answered by a status code *)

Lemma eqb_bool_decide (a b : Z) : (a =? b) = bool_decide (a = b).
Proof.
  destruct (Z.eqb_spec a b); [by rewrite bool_decide_true|
                               by rewrite bool_decide_false].
Qed.

Lemma answers_request (rq : Request) (code : Z) (c : Connection) :
  answers (resp ← request rq; mret (status resp =? code)) c (method rq) code.
Proof.
  exists rq. unfold sent, outcome. run_op. by rewrite eqb_bool_decide.
Qed.

Lemma answers_send (tg : string) (items : list (string * option string))
    (rq : Element → Request) (m : string) (code : Z) (c : Connection) :
  Forall (λ kv, is_Some kv.2) items →
  (∀ e, method (rq e) = m) →
  answers (elm ← lift (tostring_Element tg (Py.dict items));
           resp ← request (rq elm); mret (status resp =? code)) c m code.
Proof.
  intros Hitems Hm.
  rewrite (tostring_Element_Some _ _ (dict_serialisable _ Hitems)).
  eexists. unfold sent, outcome. run_op. cbn.
  split_and!; [done|apply Hm|by rewrite eqb_bool_decide].
Qed.

(** X4: the operations answered by a status code never raise on the
    answer: each sends one request by its method and returns whether the
    status of the answer is its own code, 202 for destroy, resize, share-ip
    and unshare-ip, 204 for confirm-resize, revert-resize and
    delete-ip-group; any other status, also a 2xx one, gives false. *)
Theorem boolean_operations_status (c : Connection) (n : Node) (s : NodeSize)
    (x : NodeOrId) (group ip : string) (configure : bool) :
  answers (destroy_node n) c "DELETE" 202
  ∧ answers (ex_resize n s) c "POST" 202
  ∧ answers (ex_confirm_resize n) c "POST" 204
  ∧ answers (ex_revert_resize n) c "POST" 204
  ∧ answers (ex_share_ip group x ip configure) c "PUT" 202
  ∧ answers (ex_unshare_ip x ip) c "DELETE" 202
  ∧ answers (ex_delete_ip_group group) c "DELETE" 204.
Proof.
  split_and!.
  - apply (answers_request (mkRequest _ "DELETE" None)).
  - apply answers_send; [repeat constructor; by eexists|done].
  - apply answers_send; [repeat constructor; by eexists|done].
  - apply answers_send; [repeat constructor; by eexists|done].
  - apply answers_send; [repeat constructor; by eexists|done].
  - apply (answers_request (mkRequest _ "DELETE" None)).
  - apply (answers_request (mkRequest _ "DELETE" None)).
Qed.

(** X5: [ex_rebuild] needs an image id to send: given an id, or an image
    that has one, it sends one POST and returns whether the answer has
    status 202; given an image without id, it raises TypeError before
    anything is sent. *)
Theorem ex_rebuild_image_id (c : Connection) (x : NodeOrId) (i : ImageOrId) :
  match i with
  | IsImageId _ => answers (ex_rebuild x i) c "POST" 202
  | IsImage im =>
      if image_id im is Some _ then answers (ex_rebuild x i) c "POST" 202
      else sent (ex_rebuild x i) c = []
           ∧ outcome (ex_rebuild x i) c = Raise TypeError
  end.
Proof.
  destruct i as [im|j]; [destruct (image_id im) as [j|] eqn:Hid|].
  - unfold ex_rebuild. rewrite Hid.
    apply answers_send; [repeat constructor; by eexists|done].
  - unfold ex_rebuild, sent, outcome. rewrite Hid. run_op.
    by rewrite (tostring_Element_None _ "imageId").
  - apply answers_send; [repeat constructor; by eexists|done].
Qed.

(** X6: an operation given a node that has an id does exactly what it does
    when given this id, and [ex_rebuild] given an image that has an id does
    what it does when given this id. *)
Theorem node_or_id_equivalence `{!XMLParser} (c : Connection) (n : Node)
    (im : NodeImage) (i j group ip : string) (x : NodeOrId) (y : ImageOrId)
    (b : bool) :
  node_id n = Some i → image_id im = Some j →
  ex_get_node_details (IsNode n) c = ex_get_node_details (IsId i) c
  ∧ ex_rebuild (IsNode n) y c = ex_rebuild (IsId i) y c
  ∧ ex_rebuild x (IsImage im) c = ex_rebuild x (IsImageId j) c
  ∧ ex_share_ip group (IsNode n) ip b c = ex_share_ip group (IsId i) ip b c
  ∧ ex_unshare_ip (IsNode n) ip c = ex_unshare_ip (IsId i) ip c
  ∧ ex_create_ip_group group (Some (IsNode n)) c
    = ex_create_ip_group group (Some (IsId i)) c.
Proof.
  intros Hn Hi.
  unfold ex_get_node_details, ex_rebuild, ex_share_ip, ex_unshare_ip,
    ex_create_ip_group.
  by rewrite Hn, Hi.
Qed.

(** *** Changing the name or the password *)

Lemma modify_body_adminPass (name password : option string) :
  modify_body name password !! "adminPass" = Some <$> password.
Proof.
  unfold modify_body, Py.dict; cbn [foldl fst snd].
  destruct password; by repeat (rewrite lookup_insert; case_decide; try done).
Qed.

(** X7: the [server] element of a modify request carries the password
    under [adminPass] exactly when a password is given: [ex_set_password]
    sends it, [ex_set_server_name] sends no [adminPass] attribute at all. *)
Theorem modify_payload_password (c : Connection) (n : Node)
    (name password : option string) :
  Forall (λ rq, ∃ e, data rq = Some e ∧ tag e = "server"
                     ∧ method rq = "PUT"
                     ∧ ET.get e "adminPass" = password
                     ∧ ET.get e "xmlns" = Some NAMESPACE)
         (sent (_change_password_or_name n name password) c).
Proof.
  unfold sent. rewrite _change_password_or_name_run.
  destruct (modify_name n name) as [nm|]; cbn [fst]; [|constructor].
  repeat constructor. eexists. cbn [data modify_request].
  split_and!; [done..| |]; unfold ET.get; cbn [attrib]; rewrite lookup_omap.
  - rewrite modify_body_adminPass. by destruct password.
  - unfold modify_body, Py.dict; cbn [foldl fst snd].
    destruct password;
      by repeat (rewrite lookup_insert; case_decide; try done).
Qed.

(** X8: a change of name is never written back to the node in memory:
    whatever the transport answers, also 204, the node that
    [ex_set_server_name] leaves is the node it was given, with its old
    name. *)
Theorem set_server_name_keeps_node (c : Connection) (n n' : Node)
    (name : option string) (ok : bool) :
  outcome (ex_set_server_name n name) c = Ok (ok, n') →
  n' = n ∧ node_name n' = node_name n.
Proof.
  unfold outcome, ex_set_server_name. rewrite _change_password_or_name_run.
  destruct (modify_name n name); cbn; [|done]. by intros [= _ <-].
Qed.

Lemma node_or_id_equivalence_witness :
  let c := sample_connection (answering 200 server_body "OK") in
  let im := mkNodeImage (Some "11") (Some "centos") RackspaceNodeDriver ∅ in
  node_id sample_node = Some "12345" ∧ image_id im = Some "11"
  ∧ @ex_get_node_details sample_XML (IsNode sample_node) c
    = @ex_get_node_details sample_XML (IsId "12345") c
  ∧ ex_rebuild (IsNode sample_node) (IsImage im) c
    = ex_rebuild (IsId "12345") (IsImageId "11") c.
Proof.
  intros c im.
  destruct (@node_or_id_equivalence sample_XML c sample_node im "12345" "11"
              "7" "67.23.10.132" (IsId "12345") (IsImageId "11") true
              eq_refl eq_refl) as (Hd & Hr1 & _).
  destruct (@node_or_id_equivalence sample_XML c sample_node im "12345" "11"
              "7" "67.23.10.132" (IsNode sample_node) (IsImageId "11") true
              eq_refl eq_refl) as (_ & _ & Hr2 & _).
  split_and!; [reflexivity | reflexivity | exact Hd |].
  rewrite Hr2. exact Hr1.
Defined.

Lemma set_server_name_keeps_node_witness :
  let c := sample_connection (answering 204 "" "No Content") in
  outcome (ex_set_server_name sample_node (Some "web2")) c
    = Ok (true, sample_node)
  ∧ node_name sample_node = Some "web1".
Proof.
  intros c.
  assert (∃ n', outcome (ex_set_server_name sample_node (Some "web2")) c
                = Ok (true, n')) as [n' Hn'].
  { eexists. vm_compute. reflexivity. }
  destruct (set_server_name_keeps_node c sample_node n' (Some "web2") true Hn')
    as [-> _].
  split; [exact Hn' | reflexivity].
Defined.


(** *** Listings *)

Lemma _findall_server (el : Element) :
  _findall el "server" = filter (λ c, tag c = qname "server") (children el).
Proof. apply _fixxpath_steps_1. vm_compute. reflexivity. Qed.

Lemma _findall_servers (el : Element) :
  _findall el "servers" = filter (λ c, tag c = qname "servers") (children el).
Proof. apply _fixxpath_steps_1. vm_compute. reflexivity. Qed.

Lemma _findall_public (el : Element) :
  _findall el "public" = filter (λ c, tag c = qname "public") (children el).
Proof. apply _fixxpath_steps_1. vm_compute. reflexivity. Qed.

Lemma _findall_private (el : Element) :
  _findall el "private" = filter (λ c, tag c = qname "private") (children el).
Proof. apply _fixxpath_steps_1. vm_compute. reflexivity. Qed.

Lemma _findall_ip (el : Element) :
  _findall el "ip" = filter (λ c, tag c = qname "ip") (children el).
Proof. apply _fixxpath_steps_1. vm_compute. reflexivity. Qed.


(** X9: [list_nodes] keeps every server: when the answer decodes to a
    tree, it returns one node for each [server] child of the root, in
    document order, with the id, the name and the normalised status of that
    child; no server is filtered out, whatever its status. *)
Theorem list_nodes_all_servers `{!XMLParser} (c : Connection) (tree : Element) :
  parse_body (driver c) (transport c (mkRequest "/servers/detail" "GET" None))
    = Ok (OTree tree) →
  ∃ nodes,
    outcome list_nodes c = Ok nodes
    ∧ Forall2 (λ n el, node_id n = ET.get el "id"
                       ∧ node_name n = ET.get el "name"
                       ∧ node_state n = NODE_STATE_MAP_get (ET.get el "status"))
              nodes
              (filter (λ el, tag el = qname "server") (children tree)).
Proof.
  intros Hp. unfold outcome, list_nodes. rewrite fetch_run, Hp. cbn [snd].
  eexists. split; [reflexivity|]. unfold _to_nodes. rewrite _findall_server.
  apply Forall2_fmap_l, Forall_Forall2_diag, Forall_forall. by intros el _.
Qed.

(** X10: on an answer with an empty body the listings of the Rackspace
    drivers do not return an empty list: the body decodes to [None], and
    the mapping raises AttributeError. *)
Theorem listing_empty_body `{!XMLParser} (c : Connection) (details : bool) :
  driver c ≠ OpenStackNodeDriver →
  (∀ rq, body (transport c rq) = "") →
  outcome list_nodes c = Raise AttributeError
  ∧ outcome list_images c = Raise AttributeError
  ∧ outcome ex_limits c = Raise AttributeError
  ∧ outcome (ex_list_ip_groups details) c = Raise AttributeError.
Proof.
  intros Hd Hb.
  assert (∀ rq, parse_body (driver c) (transport c rq) = Ok ONone) as Hp.
  { intros rq. destruct (driver c); [| |done]; cbn;
      unfold RackspaceResponse.parse_body, body_is_empty; by rewrite Hb. }
  unfold outcome, list_nodes, list_images, ex_limits, ex_list_ip_groups.
  run_op. by rewrite !Hp.
Qed.

(** *** Creating a node *)

Lemma fill_map_to_list {V W : Type} (m : gmap string V) (f : V → W)
    (k : string) :
  fill (λ kv : string * V, Some kv.1) (λ kv, f kv.2) ∅ (map_to_list m)
    !! Some k
  = f <$> m !! k.
Proof.
  destruct (m !! k) as [v|] eqn:Hk; cbn.
  - apply (fill_unique (λ kv : string * V, Some kv.1) (λ kv, f kv.2) ∅
                       (map_to_list m) (k, v)).
    + change (NoDup (Some ∘ fst <$> map_to_list m)).
      rewrite (list_fmap_compose fst Some).
      apply (NoDup_fmap_2 _), NoDup_fst_map_to_list.
    + by apply elem_of_map_to_list.
  - rewrite fill_other; [done|]. apply Forall_forall.
    intros [k' v'] Hin [= ->]. apply elem_of_map_to_list in Hin. congruence.
Qed.

Lemma fill_fmap {A B : Type} `{Countable K} {V : Type} (g : A → B)
    (key : B → K) (val : B → V) (d : gmap K V) (l : list A) :
  fill key val d (g <$> l) = fill (key ∘ g) (val ∘ g) d l.
Proof.
  revert d. induction l as [|x l IH]; intros d; [done|]. cbn. apply IH.
Qed.

Lemma metadata_elm_truthy (metadata : gmap string string) :
  (if element_truthy (_metadata_to_xml metadata)
   then option_list (_metadata_to_xml metadata) else [])
  = option_list (_metadata_to_xml metadata).
Proof.
  unfold _metadata_to_xml. case_decide as Hs; [done|].
  apply map_size_non_empty_iff in Hs.
  assert (map_to_list metadata ≠ []) as Hl by by rewrite map_to_list_empty_iff.
  by destruct (map_to_list metadata).
Qed.

Lemma files_elm_truthy `{!Base64} (files : gmap string string) :
  (if element_truthy (_files_to_xml files)
   then option_list (_files_to_xml files) else [])
  = option_list (_files_to_xml files).
Proof.
  unfold _files_to_xml. case_decide as Hs; [done|].
  apply map_size_non_empty_iff in Hs.
  assert (map_to_list files ≠ []) as Hl by by rewrite map_to_list_empty_iff.
  by destruct (map_to_list files).
Qed.

(** The attribute dictionary of the [server] element of [create_node]. *)
Lemma create_attributes_serialisable (name image flavor : string)
    (group : option string) :
  map_Forall (λ _ v, is_Some v)
    (match group with
     | Some g =>
         <["sharedIpGroupId" := Some g]>
           (Py.dict [ ("xmlns", Some NAMESPACE); ("name", Some name);
                      ("imageId", Some image); ("flavorId", Some flavor) ])
     | None =>
         Py.dict [ ("xmlns", Some NAMESPACE); ("name", Some name);
                   ("imageId", Some image); ("flavorId", Some flavor) ]
     end : gmap string (option string)).
Proof.
  destruct group; [apply map_Forall_insert_2; [by eexists|]|];
    apply dict_serialisable; repeat constructor; by eexists.
Qed.

Lemma payload_metadata_of (attrs : gmap string string) (txt : option string)
    `{!Base64} (metadata files : gmap string string) :
  payload_metadata
    (mkElement "server" attrs txt
       (option_list (_metadata_to_xml metadata)
        ++ option_list (_files_to_xml files)))
  = fill (λ kv : string * string, Some kv.1) (λ kv, Some kv.2) ∅
         (map_to_list metadata).
Proof.
  unfold payload_metadata; cbn [children].
  unfold _metadata_to_xml, _files_to_xml.
  case_decide as Hm.
  - apply map_size_empty_iff in Hm. subst metadata.
    rewrite map_to_list_empty. by case_decide.
  - assert (∀ items : list (string * string),
              filter (λ c, tag c = "meta") (meta_elm <$> items)
              = meta_elm <$> items) as Hmeta.
    { intros items. induction items as [|kv items IH]; [done|].
      rewrite fmap_cons, filter_cons_True by done. by rewrite IH. }
    case_decide; cbn [option_list option_rect app];
      rewrite filter_cons_True by done; rewrite ?filter_cons_False by done;
      rewrite filter_nil, select_child_singleton; cbn [children];
      fold meta_elm; rewrite Hmeta; apply get_meta_dict_meta_elms.
Qed.

Lemma _metadata_to_xml_cases (metadata : gmap string string) :
  (metadata = ∅ ∧ _metadata_to_xml metadata = None)
  ∨ (metadata ≠ ∅ ∧ ∃ e, _metadata_to_xml metadata = Some e
                         ∧ tag e = "metadata").
Proof.
  unfold _metadata_to_xml. case_decide as Hs.
  - left. by apply map_size_empty_iff in Hs.
  - right. apply map_size_non_empty_iff in Hs. split; [done|]. by eexists.
Qed.

Lemma _files_to_xml_cases `{!Base64} (files : gmap string string) :
  (files = ∅ ∧ _files_to_xml files = None)
  ∨ (files ≠ ∅ ∧ ∃ e, _files_to_xml files = Some e ∧ tag e = "personality").
Proof.
  unfold _files_to_xml. case_decide as Hs.
  - left. by apply map_size_empty_iff in Hs.
  - right. apply map_size_non_empty_iff in Hs. split; [done|]. by eexists.
Qed.

Lemma create_children_tags `{!Base64} (metadata files : gmap string string) :
  let subelements :=
    option_list (_metadata_to_xml metadata)
    ++ option_list (_files_to_xml files) in
  (metadata = ∅ ↔ Forall (λ ch, tag ch ≠ "metadata") subelements)
  ∧ (files = ∅ ↔ Forall (λ ch, tag ch ≠ "personality") subelements).
Proof.
  cbn zeta.
  destruct (_metadata_to_xml_cases metadata) as [[Hm ->]|(Hm & em & -> & Htm)],
    (_files_to_xml_cases files) as [[Hf ->]|(Hf & ef & -> & Htf)];
    cbn [option_list option_rect app]; rewrite ?Forall_cons, ?Forall_nil;
    rewrite ?Htm, ?Htf; intuition (try congruence).
Qed.

(** X11: [create_node] sends one POST to [/servers] whose [server] element
    carries the name, the image id and the flavor id as strings, the shared
    ip group id exactly when [ex_shared_ip_group_id] is given (the
    deprecated [ex_shared_ip_group] puts nothing in the request), then the
    metadata element and the personality element, each present exactly when
    its dictionary is not empty. *)
Theorem create_node_request `{!XMLParser} `{!Base64} (c : Connection)
    (kwargs : CreateArgs) :
  ∃ e, sent (create_node kwargs) c = [mkRequest "/servers" "POST" (Some e)]
       ∧ tag e = "server"
       ∧ ET.get e "xmlns" = Some NAMESPACE
       ∧ ET.get e "name" = Some (kw_name kwargs)
       ∧ ET.get e "imageId" = Some (Py.str (image_id (kw_image kwargs)))
       ∧ ET.get e "flavorId" = Some (Py.str (size_id (kw_size kwargs)))
       ∧ ET.get e "sharedIpGroupId" = kw_ex_shared_ip_group_id kwargs
       ∧ children e
         = option_list (_metadata_to_xml (kw_ex_metadata kwargs))
           ++ option_list (_files_to_xml (kw_ex_files kwargs))
       ∧ (kw_ex_metadata kwargs = ∅ ↔ Forall (λ ch, tag ch ≠ "metadata") (children e))
       ∧ (kw_ex_files kwargs = ∅ ↔ Forall (λ ch, tag ch ≠ "personality") (children e)).
Proof.
  unfold sent, create_node.
  rewrite metadata_elm_truthy, files_elm_truthy. unfold tostring_tree.
  pose proof (create_attributes_serialisable (kw_name kwargs)
                (Py.str (image_id (kw_image kwargs)))
                (Py.str (size_id (kw_size kwargs)))
                (kw_ex_shared_ip_group_id kwargs)) as Hser.
  case_decide as Hdec; [|done]. clear Hser Hdec.
  destruct (create_children_tags (kw_ex_metadata kwargs) (kw_ex_files kwargs))
    as [Hmd Hfl].
  eexists. split.
  { run_op. by destruct (parse_body _ _) as [[| |]|]. }
  cbn [tag children]. unfold ET.get. cbn [attrib]. rewrite !lookup_omap.
  split_and!; [done| | | | | |done|done|done];
    destruct (kw_ex_shared_ip_group_id kwargs);
    unfold Py.dict; cbn [foldl fst snd];
    by repeat (rewrite lookup_insert; case_decide; try done).
Qed.


Lemma create_node_sent `{!XMLParser} `{!Base64} (c : Connection)
    (kwargs : CreateArgs) :
  ∃ attrs,
    sent (create_node kwargs) c
    = [mkRequest "/servers" "POST"
         (Some (mkElement "server" attrs None
                  (option_list (_metadata_to_xml (kw_ex_metadata kwargs))
                   ++ option_list (_files_to_xml (kw_ex_files kwargs)))))].
Proof.
  unfold sent, create_node.
  rewrite metadata_elm_truthy, files_elm_truthy. unfold tostring_tree.
  pose proof (create_attributes_serialisable (kw_name kwargs)
                (Py.str (image_id (kw_image kwargs)))
                (Py.str (size_id (kw_size kwargs)))
                (kw_ex_shared_ip_group_id kwargs)) as Hser.
  case_decide as Hdec; [|done]. eexists. run_op.
  by destruct (parse_body _ _) as [[| |]|].
Qed.

(** X12: the metadata handed to [create_node] can be read back from the
    request: the metadata extraction of the node mapper, applied to the
    [meta] entries under the [metadata] child of the payload, gives a map
    with the same pairs as [ex_metadata], for every dictionary, the empty
    one included (it has no [metadata] child, and reads back as empty). *)
Theorem create_node_metadata_roundtrip `{!XMLParser} `{!Base64}
    (c : Connection) (kwargs : CreateArgs) :
  ∃ e, sent (create_node kwargs) c = [mkRequest "/servers" "POST" (Some e)]
       ∧ (∀ k, payload_metadata e !! Some k
               = Some <$> kw_ex_metadata kwargs !! k)
       ∧ payload_metadata e !! None = None.
Proof.
  destruct (create_node_sent c kwargs) as [attrs Hs]. eexists.
  split; [exact Hs|]. rewrite payload_metadata_of. split.
  - intros k. apply (fill_map_to_list (kw_ex_metadata kwargs) Some).
  - rewrite fill_other; [done|]. by apply Forall_forall.
Qed.

(** *** Files *)

(** X13: [_files_to_xml] makes no element for an empty dictionary;
    otherwise it makes a [personality] element whose children are exactly
    one [file] entry for each path of the dictionary, carrying the path as
    attribute and the base64 encoding of the content as text, no path
    occurring twice. *)
Theorem files_to_xml_entries `{!Base64} (files : gmap string string) :
  match _files_to_xml files with
  | None => files = ∅
  | Some e =>
      files ≠ ∅ ∧ tag e = "personality"
      ∧ length (children e) = size files
      ∧ NoDup ((λ f, ET.get f "path") <$> children e)
      ∧ ∀ f, f ∈ children e
             ↔ ∃ path content,
                 files !! path = Some content
                 ∧ f = mkElement "file" {["path" := path]}
                                 (Some (b64encode content)) []
  end.
Proof.
  unfold _files_to_xml. case_decide as Hs; [by apply map_size_empty_iff|].
  apply map_size_non_empty_iff in Hs. cbn [tag children].
  split_and!; [done|done| | |].
  - by rewrite length_fmap, length_map_to_list.
  - rewrite <- list_fmap_compose.
    rewrite (list_fmap_ext _ (Some ∘ fst) (map_to_list files)).
    + rewrite (list_fmap_compose fst Some).
      apply (NoDup_fmap_2 _), NoDup_fst_map_to_list.
    + intros _ [path content] _. cbn. unfold ET.get. cbn.
      apply lookup_singleton_eq.
  - intros f. rewrite list_elem_of_fmap. split.
    + intros ([path content] & -> & Hin). exists path, content.
      by apply elem_of_map_to_list in Hin.
    + intros (path & content & Hin & ->). exists (path, content).
      by apply elem_of_map_to_list in Hin.
Qed.

(** *** Shared ip groups and addresses *)

(** X14: the members of a shared ip group are read from the first
    [servers] child only: without such a child the group has no member list
    at all ([None], not an empty list); with one, the list holds the id of
    each of its [server] children, and further [servers] children are not
    read. *)
Theorem shared_ip_group_servers (el : Element) :
  match filter (λ ch, tag ch = qname "servers") (children el) with
  | [] => group_servers (_to_shared_ip_group el) = None
  | servers_el_0 :: _ =>
      group_servers (_to_shared_ip_group el)
      = Some ((λ s, ET.get s "id")
                <$> filter (λ ch, tag ch = qname "server")
                           (children servers_el_0))
  end.
Proof.
  unfold _to_shared_ip_group; cbn [group_servers]. rewrite _findall_servers.
  destruct (filter _ (children el)); [done|]. by rewrite _findall_server.
Qed.

(** X26: a member without a usable id is dropped silently from a new ip
    group: given a node that has no id, [ex_create_ip_group] does exactly
    what it does without any node, and so it does given an empty id. *)
Theorem create_ip_group_without_member `{!XMLParser} (c : Connection)
    (group_name : string) (n : Node) :
  node_id n = None →
  ex_create_ip_group group_name (Some (IsNode n)) c
    = ex_create_ip_group group_name None c
  ∧ ex_create_ip_group group_name (Some (IsId "")) c
    = ex_create_ip_group group_name None c.
Proof. intros Hn. unfold ex_create_ip_group. by rewrite Hn. Qed.

Lemma create_ip_group_without_member_witness :
  let c := sample_connection (answering 200 "" "OK") in
  let n := mkNode None (Some "web1") UNKNOWN [] [] RackspaceNodeDriver ∅ in
  node_id n = None
  ∧ @ex_create_ip_group sample_XML "failover" (Some (IsNode n)) c
    = @ex_create_ip_group sample_XML "failover" None c.
Proof.
  intros c n. split; [reflexivity|].
  exact (proj1 (@create_ip_group_without_member sample_XML c "failover" n
                  eq_refl)).
Defined.

(** X15: [_to_ip_addresses] needs both address lists: it fails (the
    subscript raises IndexError) exactly when the element has no [public]
    child or no [private] child; otherwise it returns the [addr] attributes
    of the [ip] children of the first [public] child and of the first
    [private] child. *)
Theorem ip_addresses_need_both (el : Element) :
  let public := filter (λ ch, tag ch = qname "public") (children el) in
  let private := filter (λ ch, tag ch = qname "private") (children el) in
  (_to_ip_addresses el = None ↔ public = [] ∨ private = [])
  ∧ ∀ pub priv,
      hd_error public = Some pub → hd_error private = Some priv →
      _to_ip_addresses el
      = Some (mkRackspaceNodeIpAddresses
                ((λ ip, ET.get ip "addr")
                   <$> filter (λ ch, tag ch = qname "ip") (children pub))
                ((λ ip, ET.get ip "addr")
                   <$> filter (λ ch, tag ch = qname "ip") (children priv))).
Proof.
  intros public private. unfold _to_ip_addresses.
  rewrite _findall_public, _findall_private. fold public private.
  destruct public as [|pub pubs], private as [|priv privs]; cbn [hd_error];
    (split; [intuition congruence|]); intros ?? [=] [=]; subst.
  by rewrite !_findall_ip.
Qed.

Lemma ip_addresses_need_both_witness :
  let ip a := mkElement (qname "ip") {["addr" := a]} None [] in
  let el :=
    mkElement (qname "addresses") ∅ None
      [ mkElement (qname "public") ∅ None [ip "67.23.10.132"];
        mkElement (qname "private") ∅ None [ip "10.176.42.16"] ] in
  _to_ip_addresses el
  = Some (mkRackspaceNodeIpAddresses [Some "67.23.10.132"]
                                     [Some "10.176.42.16"])
  ∧ _to_ip_addresses (mkElement (qname "addresses") ∅ None []) = None.
Proof.
  intros ip el. split.
  - rewrite (proj2 (ip_addresses_need_both el) _ _ eq_refl eq_refl).
    vm_compute. reflexivity.
  - apply (proj1 (ip_addresses_need_both _)). left. reflexivity.
Defined.


(** *** The connection class *)

(** X16: [RackspaceConnection.request] passes the action after the
    server URL (as it is while the URL is still empty), and the method and
    the data unchanged.  For POST and PUT the headers it passes are the XML
    content type alone, whatever headers the caller gave, and the parameters
    are the caller's; for GET the parameters are the caller's with the
    [cache-busting] nonce added or replaced, and the headers are the
    caller's; for any other method both are the caller's. *)
Theorem connection_request_decoration (server_url nonce action : string)
    (params : gmap string string) (data : option Element)
    (headers : gmap string string) (method : string) :
  let rq := RackspaceConnection.request server_url nonce action params data
                                        headers method in
  base_action rq = server_url +:+ action
  ∧ base_method rq = method ∧ base_data rq = data
  ∧ (method = "POST" ∨ method = "PUT" →
     base_headers rq = {[ "Content-Type" := "application/xml; charset=UTF-8" ]}
     ∧ base_params rq = params)
  ∧ (method = "GET" →
     base_params rq !! "cache-busting" = Some nonce
     ∧ (∀ k, k ≠ "cache-busting" → base_params rq !! k = params !! k)
     ∧ base_headers rq = headers)
  ∧ (method ≠ "GET" → method ≠ "POST" → method ≠ "PUT" →
     base_params rq = params ∧ base_headers rq = headers).
Proof.
  cbn zeta. unfold RackspaceConnection.request.
  cbn [base_action base_method base_data base_headers base_params].
  split_and!; [by destruct server_url|done|done| | |].
  - intros Hm. rewrite bool_decide_true by done.
    rewrite bool_decide_false; [done|]. by destruct Hm as [-> | ->].
  - intros ->. rewrite bool_decide_true by done.
    rewrite bool_decide_false by (by intros [|]).
    split_and!; [apply lookup_insert_eq| |done].
    intros k Hk. by rewrite lookup_insert_ne.
  - intros H1 H2 H3. rewrite (bool_decide_false (_ ∨ _)) by (by intros [|]).
    by rewrite bool_decide_false.
Qed.

Lemma connection_request_decoration_witness :
  let get :=
    RackspaceConnection.request "https://servers.api.rackspacecloud.com/v1.0/1"
      "9f86d081884c7d65" "/servers/detail" ∅ None {["X-Auth-Token" := "t"]}
      "GET" in
  let put :=
    RackspaceConnection.request "" "9f86d081884c7d65" "/servers/7" ∅ None
      {["X-Auth-Token" := "t"]} "PUT" in
  (base_params get !! "cache-busting" = Some "9f86d081884c7d65"
   ∧ base_headers get = {["X-Auth-Token" := "t"]})
  ∧ (base_action put = "/servers/7"
     ∧ base_headers put
       = {[ "Content-Type" := "application/xml; charset=UTF-8" ]}).
Proof.
  intros get put.
  destruct (connection_request_decoration
              "https://servers.api.rackspacecloud.com/v1.0/1"
              "9f86d081884c7d65" "/servers/detail" ∅ None
              {["X-Auth-Token" := "t"]} "GET") as (_ & _ & _ & _ & Hget & _).
  destruct (connection_request_decoration "" "9f86d081884c7d65" "/servers/7"
              ∅ None {["X-Auth-Token" := "t"]} "PUT")
    as (Hact & _ & _ & Hput & _).
  destruct (Hget eq_refl) as (Hn & _ & Hh).
  destruct (Hput (or_intror eq_refl)) as [Hc _].
  split; split; [exact Hn | exact Hh | exact Hact | exact Hc].
Defined.

(** *** States *)

(** X17: the states that tell something come from few status strings: a
    node is RUNNING exactly for ACTIVE and VERIFY_RESIZE, REBOOTING exactly
    for REBOOT and HARD_REBOOT, TERMINATED exactly for SUSPENDED; the
    comparison is by exact string, so any other spelling is UNKNOWN or
    PENDING. *)
Theorem node_state_preimages (status : option string) :
  (NODE_STATE_MAP_get status = RUNNING
   ↔ status = Some "ACTIVE" ∨ status = Some "VERIFY_RESIZE")
  ∧ (NODE_STATE_MAP_get status = REBOOTING
     ↔ status = Some "REBOOT" ∨ status = Some "HARD_REBOOT")
  ∧ (NODE_STATE_MAP_get status = TERMINATED ↔ status = Some "SUSPENDED").
Proof.
  destruct status as [s|]; cbn; [|intuition congruence].
  rewrite NODE_STATE_MAP_assoc. unfold spec_state_table; cbn [assoc].
  repeat (case_decide; [subst; cbn; intuition congruence|]).
  cbn. intuition congruence.
Qed.

(** *** Limits *)




(** *** Decoding *)

(** X19: what decoding can return depends on the response class: the
    Rackspace class returns [None] exactly for an empty body and never a raw
    string; the OpenStack class never returns [None], and a raw string it
    returns is the body of the response, unchanged. *)
Theorem parse_body_shapes `{!XMLParser} (r : Response) (s : string) :
  (RackspaceResponse.parse_body r = Ok ONone ↔ body r = "")
  ∧ RackspaceResponse.parse_body r ≠ Ok (ORaw s)
  ∧ OpenStackResponse.parse_body r ≠ Ok ONone
  ∧ (OpenStackResponse.parse_body r = Ok (ORaw s) → s = body r).
Proof.
  unfold RackspaceResponse.parse_body, OpenStackResponse.parse_body,
    body_is_empty.
  split_and!.
  - destruct (body r); [done|]. by destruct (XML _).
  - destruct (body r); [done|]. by destruct (XML _).
  - destruct (OpenStackResponse.has_content_type r _) as [h|]; cbn; [|done].
    destruct (negb h || _); [done|]. by destruct (XML _).
  - destruct (OpenStackResponse.has_content_type r _) as [h|]; cbn; [|done].
    destruct (negb h || _); [by intros [= <-]|]. by destruct (XML _).
Qed.

(** X20: error interpretation and decoding reject the same bodies: for a
    response with a body, [parse_error] raises exactly when the Rackspace
    [parse_body] raises, and with the same MalformedResponseError. *)
Theorem parse_error_rejects_as_parse_body `{!XMLParser} (r : Response)
    (e : exn) :
  body r ≠ "" →
  (RackspaceResponse.parse_error r = Raise e
   ↔ RackspaceResponse.parse_body r = Raise e).
Proof.
  intros Hb. unfold RackspaceResponse.parse_error,
    RackspaceResponse.parse_body, body_is_empty.
  destruct (body r) eqn:Hbody; [done|].
  destruct (XML _); [split; intros; discriminate | split; intros [=]; by subst].
Qed.

(** X21: for an OpenStack response whose [content-type] header (in lower
    case) names XML and whose body is not empty, the two response classes
    decode alike. *)
Theorem parse_body_variants_agree `{!XMLParser} (r : Response) (v : string) :
  headers r !! "content-type" = Some v →
  Py.find (Py.lower v) "application/xml" > -1 →
  body r ≠ "" →
  OpenStackResponse.parse_body r = RackspaceResponse.parse_body r.
Proof.
  intros Hv Hfind Hb.
  unfold OpenStackResponse.parse_body, RackspaceResponse.parse_body.
  rewrite (has_content_type_lowercase_key _ _ _ Hv). cbn.
  change (Py.lower "application/xml") with "application/xml".
  rewrite bool_decide_true by done. cbn.
  unfold body_is_empty. by destruct (body r).
Qed.



(** *** Extra entries of a node *)

(** X22: every node built by the mapper has the same six extra entries,
    some of them possibly [None], so reading [extra['password']] never
    fails; and [ex_set_password] keeps this set of keys, whatever the
    transport answers. *)
Theorem mapped_node_extra_keys (c c' : Connection) (el : Element) (p : string)
    (ok : bool) (n' : Node) :
  dom (node_extra (_to_node c el)) = extra_keys
  ∧ (outcome (ex_set_password (_to_node c el) p) c' = Ok (ok, n') →
     dom (node_extra n') = extra_keys).
Proof.
  assert (dom (node_extra (_to_node c el)) = extra_keys) as Hdom.
  { unfold _to_node, Py.dict, extra_keys; cbn [node_extra foldl fst snd].
    rewrite !dom_insert_L, dom_empty_L. set_solver. }
  split; [done|]. unfold outcome, ex_set_password.
  rewrite _change_password_or_name_run.
  destruct (modify_name _ None); cbn [snd]; [|done].
  destruct (status _ =? 204); intros [= _ <-]; [|done].
  unfold set_extra; cbn [node_extra]. rewrite dom_insert_L, Hdom.
  unfold extra_keys. set_solver.
Qed.

(** *** Content type of OpenStack responses, continued *)

(** X23: the content type is compared without regard to case on both
    sides: two responses whose [content-type] values differ only by case,
    asked for content types that differ only by case, get the same
    answer. *)
Theorem has_content_type_case_insensitive (r r' : Response)
    (content_type content_type' v v' : string) :
  headers r !! "content-type" = Some v →
  headers r' !! "content-type" = Some v' →
  Py.lower v = Py.lower v' →
  Py.lower content_type = Py.lower content_type' →
  OpenStackResponse.has_content_type r content_type
  = OpenStackResponse.has_content_type r' content_type'.
Proof.
  intros Hv Hv' Hl Hc.
  rewrite (has_content_type_lowercase_key _ _ _ Hv),
    (has_content_type_lowercase_key _ _ _ Hv').
  by rewrite Hl, Hc.
Qed.

(** X24: with header names in lower case, decoding by the OpenStack
    response class is lenient: without a content type, with a content type
    that does not contain "application/xml", or with an empty body, it
    returns the raw body and never raises, whatever the body holds. *)
Theorem openstack_lenient_decoding `{!XMLParser} (r : Response) :
  (∀ k, is_Some (headers r !! k) → Py.lower k = "content-type" →
        k = "content-type") →
  (headers r !! "content-type" = None →
   OpenStackResponse.parse_body r = Ok (ORaw (body r)))
  ∧ (∀ v, headers r !! "content-type" = Some v →
          ¬ Py.find (Py.lower v) "application/xml" > -1 →
          OpenStackResponse.parse_body r = Ok (ORaw (body r)))
  ∧ (body r = "" → OpenStackResponse.parse_body r = Ok (ORaw "")).
Proof.
  intros Hlow. rewrite (openstack_parse_body_lowercase r Hlow). split_and!.
  - by intros ->.
  - intros v -> Hf. by rewrite bool_decide_false.
  - intros Hb. unfold body_is_empty. rewrite Hb.
    destruct (headers r !! "content-type"); [|done].
    by rewrite andb_false_r.
Qed.

(** X25: a content-type header whose name is not in lower case makes
    OpenStack decoding fail: if some header name is "content-type" up to
    case and no header is named exactly "content-type", [parse_body] raises
    KeyError, whatever the header value and the body. *)
Theorem openstack_header_name_case `{!XMLParser} (r : Response) (k : string) :
  is_Some (headers r !! k) → Py.lower k = "content-type" →
  headers r !! "content-type" = None →
  OpenStackResponse.parse_body r = Raise (KeyError "content-type").
Proof.
  intros Hk Hl Hnone. unfold OpenStackResponse.parse_body.
  by rewrite (has_content_type_other_case _ _ k Hk Hl Hnone).
Qed.

(** *** Further theorems on the sample data *)

Lemma list_nodes_all_servers_witness :
  let c := sample_connection (answering 200 servers_body "OK") in
  @parse_body sample_XML_servers (driver c)
    (transport c (mkRequest "/servers/detail" "GET" None))
    = Ok (OTree sample_servers)
  ∧ ∃ nodes, outcome (@list_nodes sample_XML_servers) c = Ok nodes
             ∧ node_state <$> nodes = [RUNNING; UNKNOWN].
Proof.
  intros c.
  assert (@parse_body sample_XML_servers (driver c)
            (transport c (mkRequest "/servers/detail" "GET" None))
          = Ok (OTree sample_servers)) as Hp by (vm_compute; reflexivity).
  split; [exact Hp|].
  destruct (@list_nodes_all_servers sample_XML_servers c sample_servers Hp)
    as (nodes & Ho & Hall).
  exists nodes. split; [exact Ho|].
  assert (filter (λ el, tag el = qname "server") (children sample_servers)
          = children sample_servers) as Hf by (vm_compute; reflexivity).
  rewrite Hf in Hall. cbn [children sample_servers] in Hall.
  apply Forall2_cons_inv_r in Hall as (n1 & l1 & (_ & _ & H1) & Hall & ->).
  apply Forall2_cons_inv_r in Hall as (n2 & l2 & (_ & _ & H2) & Hall & ->).
  apply Forall2_nil_inv_r in Hall as ->.
  cbn [fmap list_fmap]. rewrite H1, H2. vm_compute. reflexivity.
Defined.

Lemma listing_empty_body_witness :
  let c := sample_connection (answering 200 "" "OK") in
  driver c ≠ OpenStackNodeDriver
  ∧ (∀ rq, body (transport c rq) = "")
  ∧ outcome (@list_nodes sample_XML) c = Raise AttributeError.
Proof.
  intros c.
  assert (driver c ≠ OpenStackNodeDriver) as Hd by discriminate.
  assert (∀ rq, body (transport c rq) = "") as Hb by reflexivity.
  split; [exact Hd | split; [exact Hb|]].
  exact (proj1 (@listing_empty_body sample_XML c true Hd Hb)).
Defined.

Lemma parse_error_rejects_as_parse_body_witness :
  body unparsable_response ≠ ""
  ∧ @RackspaceResponse.parse_body sample_XML unparsable_response
    = Raise (MalformedResponseError "Failed to parse XML" "Service Unavailable").
Proof.
  assert (body unparsable_response ≠ "") as Hb by discriminate.
  split; [exact Hb|].
  apply (@parse_error_rejects_as_parse_body sample_XML unparsable_response _ Hb).
  vm_compute. reflexivity.
Defined.

Lemma parse_body_variants_agree_witness :
  let r := mkResponse 200 {["content-type" := "Application/XML; charset=UTF-8"]}
                      server_body "OK" in
  headers r !! "content-type" = Some "Application/XML; charset=UTF-8"
  ∧ Py.find (Py.lower "Application/XML; charset=UTF-8") "application/xml" > -1
  ∧ body r ≠ ""
  ∧ @OpenStackResponse.parse_body sample_XML r = Ok (OTree sample_server).
Proof.
  intros r.
  assert (headers r !! "content-type" = Some "Application/XML; charset=UTF-8")
    as Hv by (vm_compute; reflexivity).
  assert (Py.find (Py.lower "Application/XML; charset=UTF-8") "application/xml"
          > -1) as Hf by reflexivity.
  assert (body r ≠ "") as Hb by discriminate.
  split_and!; [exact Hv | exact Hf | exact Hb |].
  rewrite (@parse_body_variants_agree sample_XML r _ Hv Hf Hb).
  vm_compute. reflexivity.
Defined.

Lemma has_content_type_case_insensitive_witness :
  let r := mkResponse 200 {["content-type" := "Application/XML"]} "" "OK" in
  let r' := mkResponse 200 {["content-type" := "application/xml"]} "" "OK" in
  OpenStackResponse.has_content_type r "application/xml"
  = OpenStackResponse.has_content_type r' "APPLICATION/XML".
Proof.
  intros r r'.
  apply (has_content_type_case_insensitive r r' _ _ "Application/XML"
                                           "application/xml");
    vm_compute; reflexivity.
Defined.

Lemma openstack_lenient_decoding_witness :
  let r := mkResponse 202 {["content-type" := "text/html"]} "Accepted"
                      "Accepted" in
  @OpenStackResponse.parse_body sample_XML r = Ok (ORaw "Accepted").
Proof.
  intros r.
  assert (∀ k, is_Some (headers r !! k) → Py.lower k = "content-type" →
               k = "content-type") as Hlow.
  { intros k [v Hk] _. cbn in Hk. apply lookup_singleton_Some in Hk as [<- _].
    reflexivity. }
  apply (proj1 (proj2 (@openstack_lenient_decoding sample_XML r Hlow))
               "text/html").
  - apply lookup_singleton_eq.
  - intros Hf. vm_compute in Hf. discriminate Hf.
Defined.

Lemma openstack_header_name_case_witness :
  let r := mkResponse 200 {["Content-Type" := "application/xml"]} server_body
                      "OK" in
  @OpenStackResponse.parse_body sample_XML r = Raise (KeyError "content-type").
Proof.
  intros r.
  apply (@openstack_header_name_case sample_XML r "Content-Type").
  - eexists. apply lookup_singleton_eq.
  - vm_compute. reflexivity.
  - vm_compute. reflexivity.
Defined.
